(** * The definition linter of printer-linter, embedded in Rocq

    Source: [src/printer-linter/src/printerlinter/linters/defintion.py],
    class [Definition].  The file has three layers:

    - the Python values and built-in operations the linter relies on
      (parsed JSON documents, [==], [in], subscripting, [float], [str]);
    - the methods of the class, one definition per method, with explicit
      state passing for the document store [self._definitions] and a
      result type for raised exceptions;
    - the properties of the specification, one theorem per claim.

    Strings are Rocq strings, one character per code point, so that
    offsets count characters as [str] offsets do in Python: the character
    of code [n] stands for the code point [n], and the strings of the
    model are those of code points below 256. *)

From Stdlib Require Import ZArith List String Ascii Bool Lia.
From Stdlib Require Import SpecFloat DecimalString Permutation.
Import ListNotations.

Local Open Scope list_scope.
Local Open Scope string_scope.

Set Implicit Arguments.

(** ** Exceptions and results *)

(** The exception classes the linter can raise.  [OSError] stands for
    [FileNotFoundError] and the other errors of reading a file,
    [JSONDecodeError] for a malformed document and [RegexError] for
    [re.error]. *)
Inductive exn : Type :=
| KeyError
| TypeError
| AttributeError
| IndexError
| RecursionError
| OSError
| JSONDecodeError
| RegexError.

Inductive result (A : Type) : Type :=
| Ok (a : A)
| Raise (e : exn).

Arguments Ok {A} a.
Arguments Raise {A} e.

Definition bind {A B : Type} (r : result A) (k : A -> result B) : result B :=
  match r with
  | Ok a => k a
  | Raise e => Raise e
  end.

Notation "x <- e ;; k" := (bind e (fun x => k))
  (at level 61, e at next level, right associativity).

(** ** Ordered dictionaries

    A Python [dict] keeps its keys in insertion order and the linter depends
    on that order twice (the first key of the store is the linted document,
    and overrides are visited in source order), so a dictionary with string
    keys is an association list in insertion order. *)
Section Dict.
Variable V : Type.

Definition dict : Type := list (string * V).

(** [d.get(k)] *)
Fixpoint dict_get (k : string) (d : dict) : option V :=
  match d with
  | [] => None
  | (k', v) :: d' => if String.eqb k k' then Some v else dict_get k d'
  end.

(** [k in d] *)
Definition dict_mem (k : string) (d : dict) : bool :=
  match dict_get k d with
  | Some _ => true
  | None => false
  end.

(** [d[k] = v]: an existing key keeps its position, a new one goes last. *)
Fixpoint dict_set (d : dict) (k : string) (v : V) : dict :=
  match d with
  | [] => [(k, v)]
  | (k', v') :: d' =>
      if String.eqb k k' then (k', v) :: d' else (k', v') :: dict_set d' k v
  end.

Definition dict_keys (d : dict) : list string := map fst d.
End Dict.

(** ** Python values

    What [json.loads] returns: [None], booleans, integers, floats, strings,
    lists and dictionaries with string keys.  A float is an IEEE 754
    binary64 number, given by the Standard Library's [spec_float]. *)
#[local] Unset Elimination Schemes.
Inductive pyval : Type :=
| PNone
| PBool (b : bool)
| PInt (z : Z)
| PFloat (f : spec_float)
| PStr (s : string)
| PList (l : list pyval)
| PDict (d : list (string * pyval)).
#[local] Set Elimination Schemes.

(** ** Floats: [float(x)] and [str(f)] *)
Module PyFloat.

Definition prec : Z := 53.
Definition emax : Z := 1024.

(** Structural equality of binary64 values (the same float, bit for bit,
    NaN payloads apart). *)
Definition same (a b : spec_float) : bool :=
  match a, b with
  | S754_zero s, S754_zero t => Bool.eqb s t
  | S754_infinity s, S754_infinity t => Bool.eqb s t
  | S754_nan, S754_nan => true
  | S754_finite s m e, S754_finite t n f =>
      Bool.eqb s t && Pos.eqb m n && Z.eqb e f
  | _, _ => false
  end.

(** [float(z)] for an integer: the nearest binary64, ties to even, and
    [OverflowError] (here [None]) when that is not finite. *)
Definition of_int (z : Z) : option spec_float :=
  match binary_normalize prec emax z 0 false with
  | S754_infinity _ => None
  | f => Some f
  end.

(** The binary64 nearest to [(-1)^neg * m * 10^e], ties to even: what
    reading a decimal literal gives. *)
Definition of_decimal (neg : bool) (m e : Z) : spec_float :=
  match m with
  | Zpos p =>
      if (0 <=? e)%Z
      then binary_normalize prec emax
             (if neg then Z.neg p * 10 ^ e else Z.pos p * 10 ^ e)%Z 0 neg
      else
        let '(q, e', l) :=
          SFdiv_core_binary prec emax (Z.pos p) 0 (10 ^ (- e))%Z 0 in
        binary_round_aux prec emax neg q e' l
  | _ => S754_zero neg
  end.

(** *** Reading a string: [float(s)] *)

(** The characters [float] strips from both ends: the ASCII white space
    (tab to carriage return, and the space) and, of the code points
    above 127, those that are white space, which it first turns into
    spaces: next line (133) and no-break space (160).  The separators 28
    to 31 are not among them. *)
Definition is_space (c : ascii) : bool :=
  let n := nat_of_ascii c in
  ((9 <=? n) && (n <=? 13) || (n =? 32) || (n =? 133) || (n =? 160))%nat.

Definition is_digit (c : ascii) : bool :=
  let n := nat_of_ascii c in ((48 <=? n) && (n <=? 57))%nat.

Definition digit_val (c : ascii) : Z := Z.of_nat (nat_of_ascii c) - 48.

Definition lower (c : ascii) : ascii :=
  let n := nat_of_ascii c in
  if ((65 <=? n) && (n <=? 90))%nat then ascii_of_nat (n + 32) else c.

Fixpoint lstrip (s : string) : string :=
  match s with
  | String c s' => if is_space c then lstrip s' else s
  | EmptyString => s
  end.

Definition rev_string (s : string) : string :=
  string_of_list_ascii (rev (list_ascii_of_string s)).

Definition strip (s : string) : string :=
  rev_string (lstrip (rev_string (lstrip s))).

Definition underscore : ascii := ascii_of_nat 95.

(** An underscore is accepted only between two digits; accepted
    underscores are removed. *)
Fixpoint drop_underscores (prev : ascii) (s : string) : option string :=
  match s with
  | EmptyString => if Ascii.eqb prev underscore then None else Some EmptyString
  | String c s' =>
      if Ascii.eqb c underscore
      then if is_digit prev then drop_underscores c s' else None
      else if Ascii.eqb prev underscore && negb (is_digit c) then None
           else option_map (String c) (drop_underscores c s')
  end.

(** Reads a run of digits: the number read on top of [acc], how many
    digits there were, and the rest of the string. *)
Fixpoint take_digits (s : string) (acc : Z) (n : Z) : Z * Z * string :=
  match s with
  | String c s' =>
      if is_digit c then take_digits s' (10 * acc + digit_val c)%Z (n + 1)%Z
      else (acc, n, s)
  | EmptyString => (acc, n, s)
  end.

Definition take_sign (s : string) : bool * string :=
  match s with
  | String "-" s' => (true, s')
  | String "+" s' => (false, s')
  | _ => (false, s)
  end.

(** The exponent part, when one is there: [e] or [E], a sign, digits. *)
Definition take_exponent (s : string) : Z * string :=
  match s with
  | String c s' =>
      if Ascii.eqb (lower c) "e"
      then
        let '(neg, s'') := take_sign s' in
        let '(x, n, rest) := take_digits s'' 0 0 in
        if (n =? 0)%Z then (0%Z, s)
        else ((if neg then - x else x)%Z, rest)
      else (0%Z, s)
  | EmptyString => (0%Z, s)
  end.

Definition lower_string (s : string) : string :=
  string_of_list_ascii (map lower (list_ascii_of_string s)).

(** [float(s)] for a string; [None] is [ValueError]. *)
Definition of_string (s : string) : option spec_float :=
  match drop_underscores zero (strip s) with
  | None => None
  | Some t =>
      let '(neg, u) := take_sign t in
      let lu := lower_string u in
      if String.eqb lu "inf" || String.eqb lu "infinity"
      then Some (S754_infinity neg)
      else if String.eqb lu "nan" then Some S754_nan
      else
        let '(ip, ni, r1) := take_digits u 0 0 in
        let '(m, nf, r2) :=
          match r1 with
          | String "." r1' => take_digits r1' ip 0
          | _ => (ip, 0%Z, r1)
          end in
        if (ni + nf =? 0)%Z then None
        else
          let '(x, r3) := take_exponent r2 in
          match r3 with
          | EmptyString => Some (of_decimal neg m (x - nf))
          | _ => None
          end
  end.

(** *** Writing a float: [str(f)], which is [repr(f)]

    The shortest decimal string that reads back as the same float and,
    among the shortest, the one nearest to it. *)

(** The positive float [m * 2^e] as a fraction. *)
Definition fraction (m : positive) (e : Z) : Z * Z :=
  if (0 <=? e)%Z then (Z.pos m * 2 ^ e, 1)%Z else (Z.pos m, 2 ^ (- e))%Z.

(** [num / den] scaled by [10^(-x)], again as a fraction. *)
Definition scale10 (num den x : Z) : Z * Z :=
  if (0 <=? x)%Z then (num, den * 10 ^ x)%Z else (num * 10 ^ (- x), den)%Z.

Fixpoint adjust (fuel : nat) (num den p : Z) : Z :=
  match fuel with
  | O => p
  | S fuel' =>
      let '(n, d) := scale10 num den (p + 1) in
      if (d <=? n)%Z then adjust fuel' num den (p + 1)%Z else p
  end.

(** The largest [p] with [10^p <= num / den]. *)
Definition ilog10 (num den : Z) : Z :=
  adjust 6 num den (((Z.log2 num - Z.log2 den - 1) * 30103) / 100000 - 2)%Z.

(** The [k]-digit decimals just below and just above [num / den], and
    which of them read back as [f]. *)
Definition candidate (f : spec_float) (num den p : Z) (k : Z)
  : option (Z * Z) :=
  let x := (p - (k - 1))%Z in
  let '(n, d) := scale10 num den x in
  let lo := (n / d)%Z in
  let r := (n mod d)%Z in
  let hi := (lo + 1)%Z in
  let lo_ok := same (of_decimal false lo x) f in
  let hi_ok := same (of_decimal false hi x) f in
  match lo_ok, hi_ok with
  | true, true =>
      match (2 * r ?= d)%Z with
      | Lt => Some (lo, x)
      | Gt => Some (hi, x)
      | Eq => Some (if Z.even lo then lo else hi, x)
      end
  | true, false => Some (lo, x)
  | false, true => Some (hi, x)
  | false, false => None
  end.

Fixpoint shortest (fuel : nat) (f : spec_float) (num den p k : Z) : Z * Z :=
  match fuel with
  | O => (0%Z, 0%Z)
  | S fuel' =>
      match candidate f num den p k with
      | Some r => r
      | None => shortest fuel' f num den p (k + 1)%Z
      end
  end.

Fixpoint drop_zeros (fuel : nat) (d x : Z) : Z * Z :=
  match fuel with
  | O => (d, x)
  | S fuel' =>
      if ((d mod 10 =? 0) && negb (d =? 0))%Z
      then drop_zeros fuel' (d / 10)%Z (x + 1)%Z
      else (d, x)
  end.

Definition digits_of (z : Z) : string := NilZero.string_of_int (Z.to_int z).

Fixpoint zeros (n : nat) : string :=
  match n with
  | O => EmptyString
  | S n' => String "0" (zeros n')
  end.

(** The layout of [repr]: [digits] are the significant digits and the
    decimal point stands [decpt] places to the right of their start;
    exponent notation when [decpt <= -4] or [decpt > 16]. *)
Definition layout (digits : string) (decpt : Z) : string :=
  let nd := Z.of_nat (String.length digits) in
  if ((decpt <=? -4) || (16 <? decpt))%Z
  then
    let x := (decpt - 1)%Z in
    let xs := digits_of (Z.abs x) in
    let xs := if (Z.abs x <? 10)%Z then String "0" xs else xs in
    let mant :=
      match digits with
      | String c EmptyString => String c EmptyString
      | String c rest => String c (String "." rest)
      | EmptyString => EmptyString
      end in
    mant ++ "e" ++ (if (x <? 0)%Z then "-" else "+") ++ xs
  else if (decpt <=? 0)%Z
  then "0." ++ zeros (Z.to_nat (- decpt)) ++ digits
  else if (decpt <? nd)%Z
  then substring 0 (Z.to_nat decpt) digits ++ "."
       ++ substring (Z.to_nat decpt) (Z.to_nat (nd - decpt)) digits
  else digits ++ zeros (Z.to_nat (decpt - nd)) ++ ".0".

Definition repr (f : spec_float) : string :=
  match f with
  | S754_nan => "nan"
  | S754_infinity s => if s then "-inf" else "inf"
  | S754_zero s => if s then "-0.0" else "0.0"
  | S754_finite s m e =>
      let '(num, den) := fraction m e in
      let p := ilog10 num den in
      let '(d0, x0) :=
        shortest 17 (binary_round prec emax false m e) num den p 1 in
      let '(d, x) := drop_zeros 20 d0 x0 in
      let ds := digits_of d in
      (if s then "-" else "")
        ++ layout ds (x + Z.of_nat (String.length ds))
  end.


End PyFloat.

(** ** Built-in operations on Python values *)
Module Py.

(** *** Equality: [a == b] *)

Definition as_number (v : pyval) : option (Z + spec_float) :=
  match v with
  | PBool b => Some (inl (if b then 1 else 0)%Z)
  | PInt z => Some (inl z)
  | PFloat f => Some (inr f)
  | _ => None
  end.

(** An integer and a float are equal when they denote the same number:
    Python compares them exactly, without rounding the integer. *)
Definition int_eq_float (z : Z) (f : spec_float) : bool :=
  match f with
  | S754_zero _ => (z =? 0)%Z
  | S754_finite s m e =>
      let v := if s then Z.neg m else Z.pos m in
      if (0 <=? e)%Z then (z =? v * 2 ^ e)%Z else (z * 2 ^ (- e) =? v)%Z
  | _ => false
  end.

Definition number_eq (x y : Z + spec_float) : bool :=
  match x, y with
  | inl a, inl b => (a =? b)%Z
  | inl a, inr g => int_eq_float a g
  | inr f, inl b => int_eq_float b f
  | inr f, inr g => SFeqb f g
  end.

Definition is_nan (v : pyval) : bool :=
  match v with
  | PFloat S754_nan => true
  | _ => false
  end.

(** [a == b].  Inside a list or a dictionary Python first asks whether
    the two elements are the same object; the only value of a parsed
    document that is not equal to itself is NaN, and [json] returns one
    NaN object for every NaN literal, so two NaN elements count as
    equal there while [nan == nan] itself is false. *)
Fixpoint eq (a b : pyval) {struct a} : bool :=
  match a with
  | PNone => match b with PNone => true | _ => false end
  | PStr s => match b with PStr t => String.eqb s t | _ => false end
  | PList l =>
      match b with
      | PList m =>
          (fix all2 (l m : list pyval) {struct l} : bool :=
             match l, m with
             | [], [] => true
             | x :: l', y :: m' =>
                 (is_nan x && is_nan y || eq x y) && all2 l' m'
             | _, _ => false
             end) l m
      | _ => false
      end
  | PDict d =>
      match b with
      | PDict d' =>
          (List.length d =? List.length d')%nat
          && forallb (fun kx : string * pyval =>
                        match dict_get (fst kx) d' with
                        | Some y => is_nan (snd kx) && is_nan y || eq (snd kx) y
                        | None => false
                        end) d
      | _ => false
      end
  | PBool _ | PInt _ | PFloat _ =>
      match as_number a, as_number b with
      | Some x, Some y => number_eq x y
      | _, _ => false
      end
  end.

(** [v in (s1, s2, ...)] for a tuple of strings. *)
Definition in_strs (v : pyval) (l : list string) : bool :=
  existsb (fun s => eq v (PStr s)) l.

(** *** Containers *)

(** [needle in s] for two strings. *)
Fixpoint is_substring (needle s : string) : bool :=
  String.prefix needle s
  || match s with
     | String _ s' => is_substring needle s'
     | EmptyString => false
     end.

(** [k in c] for a string [k]: key membership in a dictionary, element
    membership in a list, substring test in a string, [TypeError]
    elsewhere. *)
Definition contains (k : string) (c : pyval) : result bool :=
  match c with
  | PDict d => Ok (dict_mem k d)
  | PList l => Ok (existsb (fun x => eq x (PStr k)) l)
  | PStr s => Ok (is_substring k s)
  | _ => Raise TypeError
  end.

(** [c[k]] for a string [k]. *)
Definition getitem (c : pyval) (k : string) : result pyval :=
  match c with
  | PDict d =>
      match dict_get k d with
      | Some v => Ok v
      | None => Raise KeyError
      end
  | _ => Raise TypeError
  end.

(** [c.get(k, default)] *)
Definition get (c : pyval) (k : string) (default : pyval) : result pyval :=
  match c with
  | PDict d =>
      match dict_get k d with
      | Some v => Ok v
      | None => Ok default
      end
  | _ => Raise AttributeError
  end.

(** [v is None] *)
Definition is_none (v : pyval) : bool :=
  match v with
  | PNone => true
  | _ => false
  end.

(** [s.splitlines()] over the line boundaries below 256: line feed,
    carriage return (with a following line feed), vertical tab, form
    feed, the file, group and record separators, and next line (133). *)
Definition is_linebreak (c : ascii) : bool :=
  let n := nat_of_ascii c in
  ((10 <=? n) && (n <=? 13) || (28 <=? n) && (n <=? 30) || (n =? 133))%nat.

Fixpoint splitlines_from (s : string) (line : string) : list string :=
  match s with
  | EmptyString => if String.eqb line "" then [] else [line]
  | String c s' =>
      if Ascii.eqb c (ascii_of_nat 13)
      then match s' with
           | String c' s'' =>
               if Ascii.eqb c' (ascii_of_nat 10)
               then line :: splitlines_from s'' ""
               else line :: splitlines_from s' ""
           | EmptyString => [line]
           end
      else if is_linebreak c then line :: splitlines_from s' ""
      else splitlines_from s' (line ++ String c "")
  end.

Definition splitlines (s : string) : list string := splitlines_from s "".

(** [c.items()] *)
Definition items (c : pyval) : result (list (string * pyval)) :=
  match c with
  | PDict d => Ok d
  | _ => Raise AttributeError
  end.

(** The truth value of [v], as [if v:] takes it. *)
Definition truthy (v : pyval) : bool :=
  match v with
  | PNone => false
  | PBool b => b
  | PInt z => negb (z =? 0)%Z
  | PFloat (S754_zero _) => false
  | PFloat _ => true
  | PStr s => negb (String.eqb s "")
  | PList l => match l with [] => false | _ => true end
  | PDict d => match d with [] => false | _ => true end
  end.

(** *** Conversions *)

(** [float(v)]; [None] when it raises ([TypeError], [ValueError] or
    [OverflowError]). *)
Definition float (v : pyval) : option spec_float :=
  match v with
  | PBool b => Some (if b then binary_normalize 53 1024 1 0 false
                     else S754_zero false)
  | PInt z => PyFloat.of_int z
  | PFloat f => Some f
  | PStr s => PyFloat.of_string s
  | _ => None
  end.

Definition backslash : ascii := ascii_of_nat 92.
Definition squote : ascii := ascii_of_nat 39.
Definition dquote : ascii := ascii_of_nat 34.

Definition hex_digit (n : nat) : ascii :=
  if (n <? 10)%nat then ascii_of_nat (48 + n) else ascii_of_nat (87 + n).

Definition has_char (c : ascii) (s : string) : bool :=
  existsb (Ascii.eqb c) (list_ascii_of_string s).

(** The code points below 256 that are not printable: the control
    characters, 127 to 160, and the soft hyphen (173). *)
Definition is_printable (c : ascii) : bool :=
  let n := nat_of_ascii c in
  ((32 <=? n) && (n <? 127) || (160 <? n) && negb (n =? 173))%nat.

Definition escape_char (quote c : ascii) : string :=
  let n := nat_of_ascii c in
  if Ascii.eqb c backslash then String backslash (String backslash "")
  else if Ascii.eqb c quote then String backslash (String quote "")
  else if (n =? 10)%nat then String backslash "n"
  else if (n =? 13)%nat then String backslash "r"
  else if (n =? 9)%nat then String backslash "t"
  else if negb (is_printable c)
  then String backslash
         (String "x" (String (hex_digit (n / 16))
                        (String (hex_digit (n mod 16)) "")))
  else String c "".

(** [repr(s)] for a string. *)
Definition repr_string (s : string) : string :=
  let quote :=
    if has_char squote s && negb (has_char dquote s) then dquote else squote in
  String quote
    (concat "" (map (escape_char quote) (list_ascii_of_string s))
     ++ String quote "").

(** [repr(v)] *)
Fixpoint repr (v : pyval) : string :=
  match v with
  | PNone => "None"
  | PBool b => if b then "True" else "False"
  | PInt z => PyFloat.digits_of z
  | PFloat f => PyFloat.repr f
  | PStr s => repr_string s
  | PList l => "[" ++ concat ", " (map repr l) ++ "]"
  | PDict d =>
      "{" ++ concat ", "
               (map (fun kx : string * pyval =>
                       repr_string (fst kx) ++ ": " ++ repr (snd kx)) d)
          ++ "}"
  end.

(** [str(v)], which is what an f-string puts in place of [{v}]. *)
Definition str (v : pyval) : string :=
  match v with
  | PStr s => s
  | _ => repr v
  end.

End Py.

(** ** What the linter hands to its caller *)

Module Replacement.
(** Modelled from the spec: the class [Replacement] of the package
    ([printerlinter/replacement.py]) is not among the sources.  It is a
    record of the keyword arguments the linter passes: file, offset,
    length and replacement text. *)
Record t (Path : Type) : Type := make
  { file : Path;
    offset : nat;
    length : nat;
    replacement_text : string }.
End Replacement.

Module Diagnostic.
(** Modelled from the spec: the class [Diagnostic] of the package
    ([printerlinter/diagnostic.py]) is not among the sources.  It is a
    record of the keyword arguments the linter passes: file, rule name,
    message, level, offset and the list of replacements. *)
Record t (Path : Type) : Type := make
  { file : Path;
    diagnostic_name : string;
    message : string;
    level : string;
    offset : nat;
    replacements : list (Replacement.t Path) }.
End Diagnostic.

(** A match object of [re]: [span0] is [found.span(0)], the whole match,
    and [span1] is [found.span(1)], the first group. *)
Record re_match : Type :=
  { span0 : nat * nat;
    span1 : nat * nat }.

(** [found.group()]: the text of the whole match. *)
Definition group (found : re_match) (content : string) : string :=
  substring (fst (span0 found)) (snd (span0 found) - fst (span0 found)) content.

(** What iterating a generator gives: the values it yields, in order, and
    the exception that ends the iteration when one is raised. *)
Record run (A : Type) : Type :=
  { yielded : list A;
    raised : option exn }.

Definition finished {A : Type} (l : list A) : run A :=
  {| yielded := l; raised := None |}.

Definition aborted {A : Type} (l : list A) (e : exn) : run A :=
  {| yielded := l; raised := Some e |}.

(** [for x in l: s = body(x, s)] *)
Fixpoint for_each {A S : Type} (body : A -> S -> result S) (l : list A) (s : S)
  : result S :=
  match l with
  | [] => Ok s
  | x :: l' => s' <- body x s ;; for_each body l' s'
  end.

(** [self._definitions[k]] for a key that is any Python value: the keys of
    the store are strings, lists and dictionaries cannot be hashed. *)
Definition lookup_definition (definitions : dict pyval) (k : pyval)
  : result pyval :=
  match k with
  | PStr s =>
      match dict_get s definitions with
      | Some doc => Ok doc
      | None => Raise KeyError
      end
  | PList _ | PDict _ => Raise TypeError
  | _ => Raise KeyError
  end.

(** The property [base_def]. *)
Definition base_def (definitions : dict pyval) : string :=
  if dict_mem "fdmextruder" definitions then "fdmextruder" else "fdmprinter".

Definition str_in (s : string) (l : list string) : bool :=
  existsb (String.eqb s) l.

(** The outcome of [_isDefinedInParent]: the tuple
    [(is_redefined, child_key, child_value, parent)]. *)
Definition resolution : Type := bool * pyval * pyval * pyval.

Definition not_redefined : resolution := (false, PNone, PNone, PNone).

(** Lines 99-106: [str(float(x))], or [x] itself when [float] raises. *)
Definition normalized (x : pyval) : pyval :=
  match Py.float x with
  | Some f => PStr (PyFloat.repr f)
  | None => x
  end.

(** Lines 98-110: the comparison [v == cv] of one proposed value with one
    candidate. *)
Definition values_match (is_number : bool) (child_key : string)
    (child_value check_value : pyval) : bool :=
  if is_number && str_in child_key ["default_value"; "value"]
  then Py.eq (normalized child_value) (normalized check_value)
  else Py.eq child_value check_value.

(** Lines 93-96: the candidates a proposed field is compared with. *)
Definition check_values (parent : pyval) (key child_key : string)
  : result (list pyval) :=
  if str_in child_key ["default_value"; "value"]
  then
    setting <- Py.getitem parent key ;;
    dv <- Py.get setting "default_value" PNone ;;
    setting' <- Py.getitem parent key ;;
    v <- Py.get setting' "value" PNone ;;
    Ok (filter (fun cv => negb (Py.is_none cv)) [dv; v])
  else
    setting <- Py.getitem parent key ;;
    cv <- Py.get setting child_key PNone ;;
    Ok [cv].

(** Lines 91-115: the loop over the proposed fields.  [recurse] is the
    recursive call of line 114. *)
Fixpoint fields_loop (recurse : pyval -> result resolution) (key : string)
    (parent : pyval) (is_number : bool) (fields : list (string * pyval))
  : result resolution :=
  match fields with
  | [] => Ok not_redefined
  | (child_key, child_value) :: rest =>
      in_parent <- Py.contains key parent ;;
      if in_parent : bool
      then
        cvs <- check_values parent key child_key ;;
        if existsb (values_match is_number child_key child_value) cvs
        then Ok (true, PStr child_key, child_value, parent)
        else
          has_inherits <- Py.contains "inherits" parent ;;
          if has_inherits : bool
          then
            inherits <- Py.getitem parent "inherits" ;;
            recurse inherits
          else fields_loop recurse key parent is_number rest
      else fields_loop recurse key parent is_number rest
  end.

(** Lines 87-90: whether [key] is compared as a number, from the flattened
    base document. *)
Definition key_is_number (definitions : dict pyval) (key : string)
  : result bool :=
  base <- lookup_definition definitions (PStr (base_def definitions)) ;;
  base_overrides <- Py.getitem base "overrides" ;;
  in_base <- Py.contains key base_overrides ;;
  if negb in_base
  then Ok false
  else
    setting <- Py.getitem base_overrides key ;;
    type <- Py.getitem setting "type" ;;
    Ok (Py.in_strs type ["float"; "int"]).

(** [_isDefinedInParent].  [fuel] is the number of nested calls the
    interpreter still allows; when none is left Python raises
    [RecursionError]. *)
Fixpoint _isDefinedInParent (fuel : nat) (definitions : dict pyval)
    (key : string) (value_dict : pyval) (inherits_from : pyval)
  : result resolution :=
  match fuel with
  | O => Raise RecursionError
  | S fuel' =>
      doc <- lookup_definition definitions inherits_from ;;
      has_overrides <- Py.contains "overrides" doc ;;
      if negb has_overrides
      then
        inherits <- Py.getitem doc "inherits" ;;
        _isDefinedInParent fuel' definitions key value_dict inherits
      else
        parent <- Py.getitem doc "overrides" ;;
        is_number <- key_is_number definitions key ;;
        fields <- Py.items value_dict ;;
        fields_loop (_isDefinedInParent fuel' definitions key value_dict)
          key parent is_number fields
  end.

(** [_getSetting]: [settings] is the dictionary being filled. *)
Fixpoint _getSetting (fuel : nat) (name : string) (setting : pyval)
    (settings : dict pyval) : result (dict pyval) :=
  match fuel with
  | O => Raise RecursionError
  | S fuel' =>
      has_children <- Py.contains "children" setting ;;
      settings' <-
        (if has_children : bool
         then
           children <- Py.getitem setting "children" ;;
           childs <- Py.items children ;;
           for_each
             (fun (c : string * pyval) s => _getSetting fuel' (fst c) (snd c) s)
             childs settings
         else Ok settings) ;;
      Ok (dict_set settings' name setting)
  end.

(** [_loadBasePrinterSettings], on the store. *)
Definition _loadBasePrinterSettings (fuel : nat) (definitions : dict pyval)
  : result (dict pyval) :=
  base <- lookup_definition definitions (PStr (base_def definitions)) ;;
  tree <- Py.getitem base "settings" ;;
  nodes <- Py.items tree ;;
  settings <-
    for_each (fun (kv : string * pyval) s => _getSetting fuel (fst kv) (snd kv) s)
      nodes [] ;;
  Ok (dict_set definitions (base_def definitions)
        (PDict [("overrides", PDict settings)])).

(** ** The methods that touch the file system and the regular expressions *)

Definition rule_name : string := "diagnostic-definition-redundant-override".

(** A backslash and a double quote: the escaped quote of the pattern. *)
Definition escaped_quote : string := String Py.backslash (String Py.dquote "").

(** Line 42: the pattern that finds the override block of [key] in the
    source text. *)
Definition redefined_pattern (key : string) : string :=
  ".*(" ++ escaped_quote ++ key ++ escaped_quote
    ++ "[\s\:\S]*?)\{[\s\S]*?\},?".

Section Linter.

(** [pathlib.Path] and what the linter does with it. *)
Variable Path : Type.
(** [Path(s)] *)
Variable path_of : string -> Path.
(** [p.stem] *)
Variable stem : Path -> string.
(** [p.parent] *)
Variable parent_dir : Path -> Path.
(** [p.joinpath] applied to the segments *)
Variable joinpath : Path -> list string -> Path.
(** [p.exists()] *)
Variable file_exists : Path -> bool.
(** [p.read_text()] *)
Variable read_text : Path -> result string.
(** [json.loads(text)] *)
Variable json_loads : string -> result pyval.
(** [re.compile(pattern).search(text)] *)
Variable re_search : string -> string -> result (option re_match).
(** The number of nested calls the interpreter allows a method. *)
Variable recursion_limit : nat.

(** Modelled from the spec: the base class [Linter] of the package
    ([printerlinter/linters/linter.py]) is not among the sources; its
    constructor is taken to keep its two arguments as [_file] and
    [_settings], the names the methods read them by.  The other two
    fields are those [__init__] sets. *)
Record Linter : Type :=
  { _file : Path;
    _settings : pyval;
    _definitions : dict pyval;
    _content : string }.

(** Line 66: the name a document is stored under. *)
Definition definition_name_of (definition_file : Path) : string :=
  stem (path_of (stem definition_file)).

(** Lines 76-79: where the parent named [inherits] is looked for. *)
Definition parent_file (definition_file : Path) (inherits : pyval) : Path :=
  if Py.in_strs inherits ["fdmextruder"; "fdmprinter"]
  then joinpath (parent_dir (parent_dir definition_file))
         ["definitions"; Py.str inherits ++ ".def.json"]
  else joinpath (parent_dir definition_file)
         [Py.str inherits ++ ".def.json"].

(** [_loadDefinitionFiles].  It changes the store in place and an
    exception leaves the changes made so far, so the result is the store
    after the call with the exception raised, if any. *)
Fixpoint _loadDefinitionFiles (fuel : nat) (definitions : dict pyval)
    (definition_file : Path) : dict pyval * option exn :=
  match fuel with
  | O => (definitions, Some RecursionError)
  | S fuel' =>
      let definition_name := definition_name_of definition_file in
      if negb (file_exists definition_file)
         || dict_mem definition_name definitions
      then (definitions, None)
      else
        match text <- read_text definition_file ;; json_loads text with
        | Raise e => (definitions, Some e)
        | Ok doc =>
            let definitions := dict_set definitions definition_name doc in
            match Py.contains "inherits" doc with
            | Raise e => (definitions, Some e)
            | Ok false => (definitions, None)
            | Ok true =>
                match Py.getitem doc "inherits" with
                | Raise e => (definitions, Some e)
                | Ok inherits =>
                    _loadDefinitionFiles fuel' definitions
                      (parent_file definition_file inherits)
                end
            end
        end
  end.

(** [__init__]: the linter object it builds, or the exception it raises. *)
Definition __init__ (file : Path) (settings : pyval) : result Linter :=
  match _loadDefinitionFiles recursion_limit [] file with
  | (_, Some e) => Raise e
  | (definitions, None) =>
      content <- read_text file ;;
      definitions' <- _loadBasePrinterSettings recursion_limit definitions ;;
      Ok {| _file := file;
            _settings := settings;
            _definitions := definitions';
            _content := content |}
  end.

(** Lines 40-62: the body of the loop of [checkRedefineOverride] for one
    override; [Some d] when it yields the diagnostic [d]. *)
Definition redefine_step (self : Linter) (definition : pyval) (key : string)
    (value_dict : pyval) : result (option (Diagnostic.t Path)) :=
  inherits <- Py.getitem definition "inherits" ;;
  r <- _isDefinedInParent recursion_limit (_definitions self) key value_dict
         inherits ;;
  let '(is_redefined, child_key, child_value, _) := r in
  if is_redefined : bool
  then
    found <- re_search (redefined_pattern key) (_content self) ;;
    match found with
    | None => Raise AttributeError
    | Some found =>
        let replacements :=
          if (1 <? List.length (Py.splitlines (group found (_content self))))%nat
          then []
          else [Replacement.make (_file self)
                  (fst (span1 found))
                  (String.length (group found (_content self)))
                  ""] in
        Ok (Some
              (Diagnostic.make (_file self)
                 rule_name
                 ("Overriding " ++ key ++ " with the same value ("
                    ++ Py.str child_key ++ ": " ++ Py.str child_value
                    ++ ") as defined in parent definition: "
                    ++ Py.str inherits)
                 "Warning"
                 (fst (span0 found))
                 replacements))
    end
  else Ok None.

(** The [for] loop of line 39 as a generator. *)
Fixpoint redefine_loop (self : Linter) (definition : pyval)
    (overrides : list (string * pyval)) : run (Diagnostic.t Path) :=
  match overrides with
  | [] => finished []
  | (key, value_dict) :: rest =>
      match redefine_step self definition key value_dict with
      | Raise e => aborted [] e
      | Ok None => redefine_loop self definition rest
      | Ok (Some d) =>
          let r := redefine_loop self definition rest in
          {| yielded := d :: yielded r; raised := raised r |}
      end
  end.

(** [checkRedefineOverride] *)
Definition checkRedefineOverride (self : Linter) : run (Diagnostic.t Path) :=
  match dict_keys (_definitions self) with
  | [] => aborted [] IndexError
  | definition_name :: _ =>
      match lookup_definition (_definitions self) (PStr definition_name) with
      | Raise e => aborted [] e
      | Ok definition =>
          match Py.contains "overrides" definition with
          | Raise e => aborted [] e
          | Ok has_overrides =>
              if has_overrides
                 && negb (str_in definition_name ["fdmprinter"; "fdmextruder"])
              then
                match ov <- Py.getitem definition "overrides" ;; Py.items ov with
                | Raise e => aborted [] e
                | Ok overrides => redefine_loop self definition overrides
                end
              else finished []
          end
      end
  end.

(** [check]: the diagnostics of the enabled rule, then the bare [yield],
    which gives [None]. *)
Definition check (self : Linter) : run (option (Diagnostic.t Path)) :=
  match checks <- Py.getitem (_settings self) "checks" ;;
        Py.get checks rule_name (PBool false) with
  | Raise e => aborted [] e
  | Ok enabled =>
      let r := if Py.truthy enabled then checkRedefineOverride self
               else finished [] in
      match raised r with
      | Some e => aborted (map Some (yielded r)) e
      | None => finished (map Some (yielded r) ++ [None])%list
      end
  end.

End Linter.

(** ** A regular-expression engine for the linter's pattern

    The search of [redefined_pattern key] when [key] is made of letters,
    digits and underscores, so that it stands for itself in the pattern.
    The pattern is: any characters of one line, then the group (the quoted
    key and as few characters as possible), an opening brace, as few
    characters as possible, a closing brace, a comma if there is one. *)
Module Regex.

Definition newline : string := String (ascii_of_nat 10) "".

Definition quoted (key : string) : string :=
  String Py.dquote (key ++ String Py.dquote "").

Definition occurs_at (needle s : string) (j : nat) : bool :=
  String.prefix needle (substring j (String.length s - j) s).

(** The match that starts at [ls] with the quoted key at [j], if any:
    the first opening brace after the key, the first closing brace
    after it. *)
Definition attempt (needle content : string) (ls j : nat) : option re_match :=
  if occurs_at needle content j
  then
    match index (j + String.length needle) "{" content with
    | Some b =>
        match index (b + 1) "}" content with
        | Some c =>
            let e := if occurs_at "," content (c + 1) then c + 2 else c + 1 in
            Some {| span0 := (ls, e); span1 := (j, b) |}
        | None => None
        end
    | None => None
    end
  else None.

(** The leading [.*] is greedy: the key is tried at [ls + n] first, then
    leftwards down to [ls]. *)
Fixpoint rightmost (needle content : string) (ls n : nat) : option re_match :=
  match attempt needle content ls (ls + n) with
  | Some m => Some m
  | None =>
      match n with
      | O => None
      | S n' => rightmost needle content ls n'
      end
  end.

(** The search tries every start from the left; [.] does not match a
    line feed, so a match starts at the start of the first line in which
    the key can be matched. *)
Fixpoint search_lines (fuel : nat) (needle content : string) (ls : nat)
  : option re_match :=
  match fuel with
  | O => None
  | S fuel' =>
      let le := match index ls newline content with
                | Some e => e
                | None => String.length content
                end in
      match rightmost needle content ls (le - ls) with
      | Some m => Some m
      | None =>
          if (le <? String.length content)%nat
          then search_lines fuel' needle content (le + 1)
          else None
      end
  end.

Definition search_key (key content : string) : option re_match :=
  search_lines (S (String.length content)) (quoted key) content 0.

Definition is_word_char (c : ascii) : bool :=
  let n := nat_of_ascii c in
  ((48 <=? n) && (n <=? 57) || (65 <=? n) && (n <=? 90)
   || (97 <=? n) && (n <=? 122) || (n =? 95))%nat.

Definition pattern_prefix : string := ".*(" ++ escaped_quote.
Definition pattern_suffix : string := escaped_quote ++ "[\s\:\S]*?)\{[\s\S]*?\},?".

(** The key of a pattern built by [redefined_pattern]. *)
Definition key_of_pattern (pattern : string) : option string :=
  let n := String.length pattern in
  let a := String.length pattern_prefix in
  let b := String.length pattern_suffix in
  if String.prefix pattern_prefix pattern
     && String.eqb (substring (n - b) b pattern) pattern_suffix
     && (a + b <=? n)%nat
  then Some (substring a (n - a - b) pattern)
  else None.

(** [re.compile(pattern).search(content)] on the patterns described
    above; any other pattern is outside this engine and refused. *)
Definition search (pattern content : string) : result (option re_match) :=
  match key_of_pattern pattern with
  | Some key =>
      if forallb is_word_char (list_ascii_of_string key)
      then Ok (search_key key content)
      else Raise RegexError
  | None => Raise RegexError
  end.

End Regex.

(** ** Pure POSIX paths and a file table

    A model of [pathlib] on POSIX, enough to run the linter on a file
    system given as a table from paths to the text of each file and the
    document that [json.loads] reads from it. *)
Module PosixPath.

Record t : Type := { absolute : bool; parts : list string }.

Definition slash : ascii := ascii_of_nat 47.
Definition dot : ascii := ascii_of_nat 46.

Fixpoint split_slash (s : string) (part : string) : list string :=
  match s with
  | EmptyString => [part]
  | String c s' =>
      if Ascii.eqb c slash then part :: split_slash s' ""
      else split_slash s' (part ++ String c "")
  end.

Definition of_string (s : string) : t :=
  {| absolute := String.prefix "/" s;
     parts := filter (fun p => negb (String.eqb p "" || String.eqb p "."))
                (split_slash s "") |}.

Definition name (p : t) : string := last (parts p) "".

(** The position of the last dot of [s], counted from [i]. *)
Fixpoint last_dot (s : string) (i : nat) : option nat :=
  match s with
  | EmptyString => None
  | String c s' =>
      match last_dot s' (S i) with
      | Some j => Some j
      | None => if Ascii.eqb c dot then Some i else None
      end
  end.

(** The final component without its last suffix; a leading or a final
    dot does not start a suffix. *)
Definition stem (p : t) : string :=
  let n := name p in
  match last_dot n 0 with
  | Some i =>
      if ((0 <? i) && (i <? String.length n - 1))%nat
      then substring 0 i n else n
  | None => n
  end.

Definition parent (p : t) : t :=
  {| absolute := absolute p; parts := removelast (parts p) |}.

Definition joinpath (p : t) (segments : list string) : t :=
  fold_left
    (fun acc seg =>
       let q := of_string seg in
       if absolute q then q
       else {| absolute := absolute acc; parts := (parts acc ++ parts q)%list |})
    segments p.

Definition eqb (p q : t) : bool :=
  Bool.eqb (absolute p) (absolute q)
  && (List.length (parts p) =? List.length (parts q))%nat
  && forallb (fun ab => String.eqb (fst ab) (snd ab))
       (combine (parts p) (parts q)).

(** A file system: each file with its text and its parsed document
    ([None] when the text is not valid JSON). *)
Definition files : Type := list (t * (string * option pyval)).

Fixpoint find (fs : files) (p : t) : option (string * option pyval) :=
  match fs with
  | [] => None
  | (q, f) :: fs' => if eqb p q then Some f else find fs' p
  end.

Definition file_exists (fs : files) (p : t) : bool :=
  match find fs p with
  | Some _ => true
  | None => false
  end.

Definition read_text (fs : files) (p : t) : result string :=
  match find fs p with
  | Some f => Ok (fst f)
  | None => Raise OSError
  end.

(** [json.loads] on the texts of the table. *)
Fixpoint json_loads (fs : files) (text : string) : result pyval :=
  match fs with
  | [] => Raise JSONDecodeError
  | (_, (text', doc)) :: fs' =>
      if String.eqb text text'
      then match doc with
           | Some d => Ok d
           | None => Raise JSONDecodeError
           end
      else json_loads fs' text
  end.

End PosixPath.

(** ** The linter on a POSIX file system *)

(** The nesting of calls Python allows by default. *)
Definition default_limit : nat := 1000.

Definition posix_load (fs : PosixPath.files) :=
  _loadDefinitionFiles PosixPath.of_string PosixPath.stem PosixPath.parent
    PosixPath.joinpath (PosixPath.file_exists fs) (PosixPath.read_text fs)
    (PosixPath.json_loads fs).

Definition posix_init (fs : PosixPath.files) :=
  __init__ PosixPath.of_string PosixPath.stem PosixPath.parent PosixPath.joinpath
    (PosixPath.file_exists fs) (PosixPath.read_text fs)
    (PosixPath.json_loads fs) default_limit.

Definition posix_check : Linter PosixPath.t -> _ :=
  check Regex.search default_limit.

Definition posix_checkRedefineOverride : Linter PosixPath.t -> _ :=
  checkRedefineOverride Regex.search default_limit.

(** * The specification's side

    The notions the claims are stated with.  None of them is part of the
    linter; each is written from the wording of the specification, to be
    compared with what the methods compute. *)

Unset Implicit Arguments.

(** ** The setting tree of the base document, as the specification sees it *)

(** Replaces every value of a dictionary by what [f] makes of it. *)
Definition map_values {A B : Type} (f : A -> B) (d : list (string * A))
  : list (string * B) :=
  map (fun kv => (fst kv, f (snd kv))) d.

(** The nodes of a settings mapping in post-order: for each node, first
    the nodes below it (the nodes of its [children] mapping, if it has
    one), then the node itself, each with its own name and record. *)
Fixpoint postorder (tree : pyval) : list (string * pyval) :=
  match tree with
  | PDict nodes =>
      flat_map
        (fun node : string * pyval =>
           (match snd node with
            | PDict fields =>
                match dict_get "children" (map_values postorder fields) with
                | Some below => below
                | None => []
                end
            | _ => []
            end ++ [node])%list)
        nodes
  | _ => []
  end.

(** A well-formed settings mapping: a dictionary whose nodes are
    dictionaries, each with a well-formed [children] mapping or none. *)
Fixpoint wf_settings (tree : pyval) : bool :=
  match tree with
  | PDict nodes =>
      forallb
        (fun node : string * pyval =>
           match snd node with
           | PDict fields =>
               match dict_get "children" (map_values wf_settings fields) with
               | Some ok => ok
               | None => true
               end
           | _ => false
           end)
        nodes
  | _ => false
  end.

(** The number of levels of a settings mapping: how many nested calls of
    [_getSetting] its deepest node takes. *)
Fixpoint levels (tree : pyval) : nat :=
  match tree with
  | PDict nodes =>
      list_max
        (map
           (fun node : string * pyval =>
              S (match snd node with
                 | PDict fields =>
                     match dict_get "children" (map_values levels fields) with
                     | Some n => n
                     | None => O
                     end
                 | _ => O
                 end))
           nodes)
  | _ => O
  end.

(** The dictionary that results from the insertions [d[k] = v] of [l],
    made in order on [d]. *)
Definition inserts (l : list (string * pyval)) (d : dict pyval) : dict pyval :=
  fold_left (fun acc kv => dict_set acc (fst kv) (snd kv)) l d.


(** The nodes below a node, in post-order. *)
Definition below (setting : pyval) : list (string * pyval) :=
  match setting with
  | PDict fields =>
      match dict_get "children" fields with
      | Some children => postorder children
      | None => []
      end
  | _ => []
  end.

(** ** Resolution, as the specification sees it *)

(** The numeric mode of a key, read off the flattened base overrides:
    not numeric when the key is absent, else numeric exactly when its
    [type] is [float] or [int]. *)
Definition numeric_mode_is (base_overrides : dict pyval) (key : string)
    (numeric : bool) : Prop :=
  match dict_get key base_overrides with
  | None => numeric = false
  | Some setting =>
      exists type, Py.getitem setting "type" = Ok type
                   /\ numeric = Py.in_strs type ["float"; "int"]
  end.

(** [setting.get(field)], [None] when absent. *)
Definition field_of (setting : dict pyval) (field : string) : pyval :=
  match dict_get field setting with
  | Some v => v
  | None => PNone
  end.

(** The candidates of a proposed field in the ancestor's record of the
    key: for [default_value] and [value], those of the two that the
    record has (and that are not [None]); for any other field, the
    record's field of the same name ([None] when it has none). *)
Definition candidates (setting : dict pyval) (field : string) : list pyval :=
  if str_in field ["default_value"; "value"]
  then filter (fun cv => negb (Py.is_none cv))
         [field_of setting "default_value"; field_of setting "value"]
  else [field_of setting field].

(** The comparison of a proposed value with a candidate: on the strings
    [str(float(x))] of both, each side keeping its raw value when [float]
    fails on it, when the key is numeric and the proposed field is
    [default_value] or [value]; with [==] on the raw values otherwise. *)
Definition compared_equal (numeric : bool) (field : string)
    (value candidate : pyval) : bool :=
  match numeric, str_in field ["default_value"; "value"] with
  | true, true =>
      Py.eq
        (match Py.float value with
         | Some f => PStr (PyFloat.repr f)
         | None => value
         end)
        (match Py.float candidate with
         | Some f => PStr (PyFloat.repr f)
         | None => candidate
         end)
  | _, _ => Py.eq value candidate
  end.

(** The first proposed field, in the order of the override, one of whose
    candidates compares equal. *)
Fixpoint first_match (numeric : bool) (setting : dict pyval)
    (fields : list (string * pyval)) : option (string * pyval) :=
  match fields with
  | [] => None
  | (field, value) :: rest =>
      if existsb (compared_equal numeric field value) (candidates setting field)
      then Some (field, value)
      else first_match numeric setting rest
  end.

(** The resolution of [key], started at an ancestor, comes to look up a
    name that the store does not have, within [n] nested calls: at once;
    or through a document without overrides, by the name it inherits from;
    or through a document whose overrides define the key, do not match the
    first proposed field and have an entry [inherits], by that entry. *)
Inductive names_missing (definitions : dict pyval) (key : string)
    (value_dict : pyval) : pyval -> nat -> Prop :=
| missing_here (anc : string) :
    dict_get anc definitions = None ->
    names_missing definitions key value_dict (PStr anc) 1
| missing_above (anc : string) (doc : dict pyval) (next : pyval) (n : nat) :
    dict_get anc definitions = Some (PDict doc) ->
    dict_get "overrides" doc = None ->
    dict_get "inherits" doc = Some next ->
    names_missing definitions key value_dict next n ->
    names_missing definitions key value_dict (PStr anc) (S n)
| missing_beyond (anc : string) (doc parent setting : dict pyval)
    (numeric : bool) (field : string) (value : pyval)
    (rest : list (string * pyval)) (next : pyval) (n : nat) :
    dict_get anc definitions = Some (PDict doc) ->
    dict_get "overrides" doc = Some (PDict parent) ->
    key_is_number definitions key = Ok numeric ->
    value_dict = PDict ((field, value) :: rest) ->
    dict_get key parent = Some (PDict setting) ->
    existsb (compared_equal numeric field value) (candidates setting field)
    = false ->
    dict_get "inherits" parent = Some next ->
    names_missing definitions key value_dict next n ->
    names_missing definitions key value_dict (PStr anc) (S n).

(** A text lies on one line when [splitlines] gives at most one line. *)
Definition single_line (text : string) : bool :=
  (List.length (Py.splitlines text) <=? 1)%nat.

(** ** Example documents *)
Module Examples.

Definition qt : string -> string := Regex.quoted.
Definition nl : string := Regex.newline.

Definition settings_on : pyval :=
  PDict [("checks", PDict [(rule_name, PBool true)])].

Definition settings_off : pyval :=
  PDict [("checks", PDict [(rule_name, PBool false)])].

Definition settings_silent : pyval := PDict [("checks", PDict [])].

(** *** A chain A, B, C: B only inherits, C defines [speed] *)

Definition text_A : string :=
  "{" ++ nl
  ++ "    " ++ qt "inherits" ++ ": " ++ qt "B" ++ "," ++ nl
  ++ "    " ++ qt "overrides" ++ ": {" ++ nl
  ++ "        " ++ qt "speed" ++ ": { " ++ qt "value" ++ ": 50 }" ++ nl
  ++ "    }" ++ nl
  ++ "}" ++ nl.

Definition doc_A : pyval :=
  PDict [("inherits", PStr "B");
         ("overrides", PDict [("speed", PDict [("value", PInt 50)])])].

Definition text_B : string :=
  "{ " ++ qt "inherits" ++ ": " ++ qt "C" ++ " }".

Definition doc_B : pyval := PDict [("inherits", PStr "C")].

Definition text_C : string :=
  "{ " ++ qt "inherits" ++ ": " ++ qt "fdmprinter" ++ ", "
  ++ qt "overrides" ++ ": { " ++ qt "speed" ++ ": { "
  ++ qt "default_value" ++ ": 50 } } }".

Definition overrides_C : pyval :=
  PDict [("speed", PDict [("default_value", PInt 50)])].

Definition doc_C : pyval :=
  PDict [("inherits", PStr "fdmprinter"); ("overrides", overrides_C)].

Definition text_fdmprinter : string :=
  "{ " ++ qt "settings" ++ ": { " ++ qt "speed" ++ ": { "
  ++ qt "type" ++ ": " ++ qt "float" ++ ", "
  ++ qt "default_value" ++ ": 60 } } }".

Definition speed_setting : pyval :=
  PDict [("type", PStr "float"); ("default_value", PInt 60)].

Definition doc_fdmprinter : pyval :=
  PDict [("settings", PDict [("speed", speed_setting)])].

Definition file_A : PosixPath.t := PosixPath.of_string "definitions/A.def.json".

Definition fs_chain : PosixPath.files :=
  [ (file_A, (text_A, Some doc_A));
    (PosixPath.of_string "definitions/B.def.json", (text_B, Some doc_B));
    (PosixPath.of_string "definitions/C.def.json", (text_C, Some doc_C));
    (PosixPath.of_string "definitions/fdmprinter.def.json",
     (text_fdmprinter, Some doc_fdmprinter)) ].

(** The flattened base document. *)
Definition flat_fdmprinter : pyval :=
  PDict [("overrides", PDict [("speed", speed_setting)])].

Definition store_chain : dict pyval :=
  [("A", doc_A); ("B", doc_B); ("C", doc_C); ("fdmprinter", flat_fdmprinter)].

Definition self_chain (settings : pyval) : Linter PosixPath.t :=
  {| _file := file_A;
     _settings := settings;
     _definitions := store_chain;
     _content := text_A |}.

(** *** B overrides [speed] with another value than C *)

Definition overrides_B60 : pyval :=
  PDict [("speed", PDict [("value", PInt 60)])].

Definition doc_B60 : pyval :=
  PDict [("inherits", PStr "C"); ("overrides", overrides_B60)].

Definition store_shadow : dict pyval :=
  [("A", doc_A); ("B", doc_B60); ("C", doc_C); ("fdmprinter", flat_fdmprinter)].

(** *** A bound given as a string against the same bound as a number *)

Definition overrides_P : pyval :=
  PDict [("speed", PDict [("minimum_value", PInt 10)])].

Definition store_bound : dict pyval :=
  [("A", PDict [("inherits", PStr "P");
                ("overrides",
                 PDict [("speed", PDict [("minimum_value", PStr "10")])])]);
   ("P", PDict [("inherits", PStr "fdmprinter"); ("overrides", overrides_P)]);
   ("fdmprinter", flat_fdmprinter)].

(** *** A numeric key and a key of another type *)



(** *** A nested settings tree *)

Definition settings_tree : pyval :=
  PDict
    [("machine",
      PDict [("type", PStr "category");
             ("children",
              PDict [("speed",
                      PDict [("type", PStr "float");
                             ("default_value", PInt 60);
                             ("children",
                              PDict [("speed_wall",
                                      PDict [("type", PStr "float")])])]);
                     ("name", PDict [("type", PStr "str")])])]);
     ("other", PDict [("type", PStr "category")])].

Definition store_nested : dict pyval :=
  [("A", doc_A); ("fdmprinter", PDict [("settings", settings_tree)])].

(** *** A parent file that does not exist *)

Definition fs_orphan : PosixPath.files := [(file_A, (text_A, Some doc_A))].

(** *** An override that is not an object *)

Definition text_M : string :=
  "{" ++ nl
  ++ "    " ++ qt "inherits" ++ ": " ++ qt "fdmprinter" ++ "," ++ nl
  ++ "    " ++ qt "overrides" ++ ": {" ++ nl
  ++ "        " ++ qt "speed" ++ ": { " ++ qt "value" ++ ": 60 }," ++ nl
  ++ "        " ++ qt "speed_wall" ++ ": 40" ++ nl
  ++ "    }" ++ nl
  ++ "}" ++ nl.

Definition doc_M : pyval :=
  PDict [("inherits", PStr "fdmprinter");
         ("overrides", PDict [("speed", PDict [("value", PInt 60)]);
                              ("speed_wall", PInt 40)])].

Definition file_M : PosixPath.t := PosixPath.of_string "definitions/M.def.json".

Definition fs_malformed : PosixPath.files :=
  [ (file_M, (text_M, Some doc_M));
    (PosixPath.of_string "definitions/fdmprinter.def.json",
     (text_fdmprinter, Some doc_fdmprinter)) ].

Definition self_malformed : Linter PosixPath.t :=
  {| _file := file_M;
     _settings := settings_on;
     _definitions := [("M", doc_M); ("fdmprinter", flat_fdmprinter)];
     _content := text_M |}.

(** *** A parent named by a path: stored under its last component *)

Definition text_S : string :=
  "{" ++ nl
  ++ "    " ++ qt "inherits" ++ ": " ++ qt "sub/B" ++ "," ++ nl
  ++ "    " ++ qt "overrides" ++ ": {" ++ nl
  ++ "        " ++ qt "speed" ++ ": { " ++ qt "value" ++ ": 50 }" ++ nl
  ++ "    }" ++ nl
  ++ "}" ++ nl.

Definition doc_S : pyval :=
  PDict [("inherits", PStr "sub/B");
         ("overrides", PDict [("speed", PDict [("value", PInt 50)])])].

Definition text_subB : string :=
  "{ " ++ qt "inherits" ++ ": " ++ qt "fdmprinter" ++ " }".

Definition doc_subB : pyval := PDict [("inherits", PStr "fdmprinter")].

Definition file_S : PosixPath.t := PosixPath.of_string "definitions/S.def.json".

Definition fs_sub : PosixPath.files :=
  [ (file_S, (text_S, Some doc_S));
    (PosixPath.of_string "definitions/sub/B.def.json",
     (text_subB, Some doc_subB));
    (PosixPath.of_string "definitions/definitions/fdmprinter.def.json",
     (text_fdmprinter, Some doc_fdmprinter)) ].

Definition self_sub : Linter PosixPath.t :=
  {| _file := file_S;
     _settings := settings_on;
     _definitions :=
       [("S", doc_S); ("B", doc_subB); ("fdmprinter", flat_fdmprinter)];
     _content := text_S |}.

(** The match of the pattern of [speed] in the text of A. *)
Definition found_speed : re_match := {| span0 := (42, 74); span1 := (50, 59) |}.

(** The diagnostic of the override of [speed] in A. *)
Definition diagnostic_A : Diagnostic.t PosixPath.t :=
  Diagnostic.make file_A rule_name
    "Overriding speed with the same value (value: 50) as defined in parent definition: B"
    "Warning" 42
    [Replacement.make file_A 50 32 ""].

End Examples.

(** * The printer configuration model

    Source: [src/cura/PrinterOutput/Models/PrinterConfigurationModel.py],
    class [PrinterConfigurationModel]. *)
Module PrinterConfiguration.
Section Model.

(** The class [ExtruderConfigurationModel] is not among the sources: an
    extruder configuration is a reference to an object, and what the
    model asks of it is taken as given.  The same goes for the material
    an extruder holds and for the hash of the built-in types. *)
Variable Extruder : Type.
(** [a is b] *)
Variable same_object : forall a b : Extruder, {a = b} + {a <> b}.
(** [a.position] *)
Variable position : Extruder -> Z.
(** The truth of [a == b], for two extruder configurations. *)
Variable extruder_eq : Extruder -> Extruder -> bool.
(** The truth of [a == None]. *)
Variable extruder_eq_None : Extruder -> bool.
(** [hash(a)] *)
Variable extruder_hash : Extruder -> Z.
(** [str(a)] *)
Variable extruder_str : Extruder -> string.
(** The truth value of [a], as [if a:] takes it. *)
Variable extruder_truth : Extruder -> bool.
Variable Material : Type.
(** [a.activeMaterial], [None] when it is [None]. *)
Variable active_material : Extruder -> option Material.
(** The truth value of a material. *)
Variable material_truth : Material -> bool.
(** [m.type] *)
Variable material_type : Material -> string.
(** [hash(s)] for a string and [hash(None)]. *)
Variable hash_str : string -> Z.
Variable hash_None : Z.

(** The object: its three attributes, and of the signal
    [configurationChanged] how many times it was emitted and the
    extruder signals connected to it, in the order of the connections. *)
Record t : Type :=
  { _printer_type : string;
    _extruder_configurations : list (option Extruder);
    _buildplate_configuration : option string;
    emitted : nat;
    connected : list Extruder }.

(** [__init__] *)
Definition new : t :=
  {| _printer_type := "";
     _extruder_configurations := [];
     _buildplate_configuration := Some "";
     emitted := 0;
     connected := [] |}.

Definition setPrinterType (self : t) (printer_type : string) : t :=
  {| _printer_type := printer_type;
     _extruder_configurations := _extruder_configurations self;
     _buildplate_configuration := _buildplate_configuration self;
     emitted := emitted self;
     connected := connected self |}.

Definition printerType (self : t) : string := _printer_type self.

(** Two elements of a list count as equal when they are the same object
    or compare equal. *)
Definition element_eq (a b : option Extruder) : bool :=
  match a, b with
  | None, None => true
  | Some x, Some y => if same_object x y then true else extruder_eq x y
  | Some x, None => extruder_eq_None x
  | None, Some y => extruder_eq_None y
  end.

(** [l != l'] for two lists. *)
Fixpoint list_ne (l l' : list (option Extruder)) : bool :=
  match l, l' with
  | [], [] => false
  | a :: l, b :: l' => negb (element_eq a b) || list_ne l l'
  | _, _ => true
  end.

(** Lines 33-34: the loop that connects the signal of each extruder;
    [None] has no signal. *)
Fixpoint connect_all (l : list (option Extruder)) (connected : list Extruder)
  : list Extruder * option exn :=
  match l with
  | [] => (connected, None)
  | None :: _ => (connected, Some AttributeError)
  | Some e :: l' => connect_all l' (connected ++ [e])%list
  end.

(** [setExtruderConfigurations]: the object after the call and the
    exception raised, if any. *)
Definition setExtruderConfigurations (self : t)
    (extruder_configurations : list (option Extruder)) : t * option exn :=
  if list_ne (_extruder_configurations self) extruder_configurations
  then
    match connect_all extruder_configurations (connected self) with
    | (connected', Some e) =>
        ({| _printer_type := _printer_type self;
            _extruder_configurations := extruder_configurations;
            _buildplate_configuration := _buildplate_configuration self;
            emitted := emitted self;
            connected := connected' |}, Some e)
    | (connected', None) =>
        ({| _printer_type := _printer_type self;
            _extruder_configurations := extruder_configurations;
            _buildplate_configuration := _buildplate_configuration self;
            emitted := S (emitted self);
            connected := connected' |}, None)
    end
  else (self, None).

Definition extruderConfigurations (self : t) : list (option Extruder) :=
  _extruder_configurations self.

Definition option_string_eqb (a b : option string) : bool :=
  match a, b with
  | None, None => true
  | Some x, Some y => String.eqb x y
  | _, _ => false
  end.

Definition setBuildplateConfiguration (self : t)
    (buildplate_configuration : option string) : t :=
  if negb (option_string_eqb (_buildplate_configuration self)
             buildplate_configuration)
  then {| _printer_type := _printer_type self;
          _extruder_configurations := _extruder_configurations self;
          _buildplate_configuration := buildplate_configuration;
          emitted := S (emitted self);
          connected := connected self |}
  else self.

Definition buildplateConfiguration (self : t) : option string :=
  _buildplate_configuration self.

Definition is_None (c : option Extruder) : bool :=
  match c with
  | None => true
  | Some _ => false
  end.

(** [isValid]: [False] for no extruder; else the first value of the
    generator, [False], when some extruder is [None]; else the default,
    whether the printer type is not empty. *)
Definition isValid (self : t) : bool :=
  match _extruder_configurations self with
  | [] => false
  | _ =>
      match find is_None (_extruder_configurations self) with
      | Some _ => false
      | None => negb (String.eqb (_printer_type self) "")
      end
  end.

(** Lines 72-73: [configuration.activeMaterial and
    configuration.activeMaterial.type != "empty"], as a truth value. *)
Definition has_material (e : Extruder) : bool :=
  match active_material e with
  | None => false
  | Some m => material_truth m && negb (String.eqb (material_type m) "empty")
  end.

(** [any] over the extruders, which stops at the first true value;
    [None] has no attribute [activeMaterial]. *)
Fixpoint any_material (l : list (option Extruder)) : result bool :=
  match l with
  | [] => Ok false
  | None :: _ => Raise AttributeError
  | Some e :: l' => if has_material e then Ok true else any_material l'
  end.

Definition hasAnyMaterialLoaded (self : t) : result bool :=
  if isValid self then any_material (_extruder_configurations self)
  else Ok false.

Definition newline : string := String (ascii_of_nat 10) "".

(** [__str__] *)
Definition __str__ (self : t) : string :=
  concat newline
    ([("Printer type: " ++ _printer_type self)%string; "Extruders: ["]
       ++ map (fun c => ("   " ++ match c with
                                  | Some e => extruder_str e
                                  | None => "None"
                                  end)%string)
            (_extruder_configurations self)
       ++ ["]"]
       ++ match _buildplate_configuration self with
          | Some b => [("Buildplate: " ++ b)%string]
          | None => []
          end)%list.

(** The keys of [sorted]: [x.position] of each element in turn; [None]
    has no position. *)
Fixpoint extruders_of (l : list (option Extruder)) : result (list Extruder) :=
  match l with
  | [] => Ok []
  | None :: _ => Raise AttributeError
  | Some e :: l' => es <- extruders_of l' ;; Ok (e :: es)
  end.

(** [sorted(l, key=lambda x: x.position)]: a stable sort, so equal
    positions keep their order. *)
Fixpoint insert_by_position (x : Extruder) (l : list Extruder)
  : list Extruder :=
  match l with
  | [] => [x]
  | y :: l' =>
      if (position x <=? position y)%Z then x :: l
      else y :: insert_by_position x l'
  end.

Definition sorted_by_position (l : list Extruder) : list Extruder :=
  fold_right insert_by_position [] l.

(** [all(a == b for a, b in zip(l, l'))] *)
Fixpoint all_equal (l l' : list Extruder) : bool :=
  match l, l' with
  | a :: l, b :: l' => extruder_eq a b && all_equal l l'
  | _, _ => true
  end.

(** [__eq__]; [other] is [None] when it is not a
    [PrinterConfigurationModel]. *)
Definition __eq__ (self : t) (other : option t) : result bool :=
  match other with
  | None => Ok false
  | Some other =>
      if negb (String.eqb (printerType self) (printerType other))
      then Ok false
      else if negb (option_string_eqb (buildplateConfiguration self)
                      (buildplateConfiguration other))
      then Ok false
      else if negb (List.length (extruderConfigurations self)
                    =? List.length (extruderConfigurations other))%nat
      then Ok false
      else
        mine <- extruders_of (_extruder_configurations self) ;;
        theirs <- extruders_of (extruderConfigurations other) ;;
        Ok (all_equal (sorted_by_position mine) (sorted_by_position theirs))
  end.

(** Lines 118-123: the loop of [__hash__], from the hash so far and the
    first extruder so far. *)
Fixpoint hash_loop (l : list (option Extruder)) (extruder_hash_so_far : Z)
    (first_extruder : option Extruder) : result (Z * option Extruder) :=
  match l with
  | [] => Ok (extruder_hash_so_far, first_extruder)
  | None :: _ => Raise AttributeError
  | Some e :: l' =>
      hash_loop l' (Z.lxor extruder_hash_so_far (extruder_hash e))
        (if (position e =? 0)%Z then Some e else first_extruder)
  end.

Definition hash_buildplate (b : option string) : Z :=
  match b with
  | Some s => hash_str s
  | None => hash_None
  end.

(** [__hash__] *)
Definition __hash__ (self : t) : result Z :=
  r <- hash_loop (_extruder_configurations self) 0%Z None ;;
  let '(extruder_hash_all, first_extruder) := r in
  let extruder_hash_all :=
    match first_extruder with
    | Some e =>
        if extruder_truth e
        then Z.land extruder_hash_all (extruder_hash e)
        else extruder_hash_all
    | None => extruder_hash_all
    end in
  Ok (Z.lxor (Z.lxor (hash_str (_printer_type self)) extruder_hash_all)
        (hash_buildplate (_buildplate_configuration self))).

(** ** Notions for the properties of the model *)

(** The exclusive or of the hashes of a list of extruders. *)
Definition xor_hashes (l : list Extruder) : Z :=
  fold_right (fun e acc => Z.lxor (extruder_hash e) acc) 0%Z l.

(** The extruders at position 0, in the order of the list. *)
Definition at_zero (l : list Extruder) : list Extruder :=
  filter (fun e => (position e =? 0)%Z) l.

(** The last element of a list, if any. *)
Definition last_of (l : list Extruder) : option Extruder :=
  match rev l with
  | e :: _ => Some e
  | [] => None
  end.

End Model.
End PrinterConfiguration.

(** ** Notions for the further properties of the methods *)

(** From the ancestor [a], [k] documents without overrides lead, each by
    the name it inherits from, to [b]. *)
Inductive skips (definitions : dict pyval) : pyval -> nat -> pyval -> Prop :=
| skips_none (a : pyval) : skips definitions a 0 a
| skips_one (a : string) (doc : dict pyval) (next b : pyval) (k : nat) :
    dict_get a definitions = Some (PDict doc) ->
    dict_get "overrides" doc = None ->
    dict_get "inherits" doc = Some next ->
    skips definitions next k b ->
    skips definitions (PStr a) (S k) b.

(** The first component of the resolver's answer. *)
Definition is_redefined (r : resolution) : bool := fst (fst (fst r)).

Definition result_map {A B : Type} (f : A -> B) (r : result A) : result B :=
  match r with
  | Ok a => Ok (f a)
  | Raise e => Raise e
  end.

(** The names of [names] under which the store has no document yet. *)
Definition not_loaded (names : list string) (definitions : dict pyval)
  : list string :=
  filter (fun name => negb (dict_mem name definitions)) names.

(** ** Further example documents *)
Module MoreExamples.

(** *** Two documents that inherit from each other *)

Definition doc_X : pyval := PDict [("inherits", PStr "Y")].
Definition doc_Y : pyval := PDict [("inherits", PStr "X")].

Definition file_X : PosixPath.t := PosixPath.of_string "definitions/X.def.json".
Definition file_Y : PosixPath.t := PosixPath.of_string "definitions/Y.def.json".

Definition fs_cycle : PosixPath.files :=
  [ (file_X,
     ("{ " ++ Examples.qt "inherits" ++ ": " ++ Examples.qt "Y" ++ " }",
      Some doc_X));
    (file_Y,
     ("{ " ++ Examples.qt "inherits" ++ ": " ++ Examples.qt "X" ++ " }",
      Some doc_Y)) ].

Definition store_cycle : dict pyval := [("X", doc_X); ("Y", doc_Y)].

(** *** A root document with overrides of its own *)

Definition self_root : Linter PosixPath.t :=
  {| _file := PosixPath.of_string "definitions/fdmprinter.def.json";
     _settings := Examples.settings_on;
     _definitions :=
       [("fdmprinter",
         PDict [("overrides",
                 PDict [("speed", PDict [("type", PStr "float");
                                          ("default_value", PInt 60)])])])];
     _content := Examples.text_fdmprinter |}.

(** *** Extruder configurations

    An extruder configuration of the examples: its position and the
    type of the material it holds.  Two of them compare equal when both
    agree; the hash mixes both; every one of them is true. *)
Definition extruder : Type := (Z * string)%type.

Definition extruder_is (a b : extruder) : {a = b} + {a <> b}.
Proof.
  decide equality; [apply string_dec | apply Z.eq_dec].
Defined.

Definition extruder_position (e : extruder) : Z := fst e.

Definition extruder_equal (a b : extruder) : bool :=
  (fst a =? fst b)%Z && String.eqb (snd a) (snd b).

Definition extruder_hashed (e : extruder) : Z :=
  Z.lxor (fst e) (Z.of_nat (String.length (snd e))).

Definition string_hashed (s : string) : Z := Z.of_nat (String.length s).

Definition left_pla : extruder := (0%Z, "PLA").
Definition right_abs : extruder := (1%Z, "ABS").

Definition model_left_right : PrinterConfiguration.t extruder :=
  {| PrinterConfiguration._printer_type := "ultimaker3";
     PrinterConfiguration._extruder_configurations :=
       [Some left_pla; Some right_abs];
     PrinterConfiguration._buildplate_configuration := Some "glass";
     PrinterConfiguration.emitted := 0;
     PrinterConfiguration.connected := [] |}.

Definition model_right_left : PrinterConfiguration.t extruder :=
  {| PrinterConfiguration._printer_type := "ultimaker3";
     PrinterConfiguration._extruder_configurations :=
       [Some right_abs; Some left_pla];
     PrinterConfiguration._buildplate_configuration := Some "glass";
     PrinterConfiguration.emitted := 0;
     PrinterConfiguration.connected := [] |}.

End MoreExamples.

(** * Properties *)

(** ** Dictionaries *)
Section DictFacts.
Context {V : Type}.
Implicit Types (d : dict V) (k : string) (v : V).

Lemma dict_get_set_same d k v : dict_get k (dict_set d k v) = Some v.
Proof.
  induction d as [|[k' v'] d IH]; simpl.
  - now rewrite String.eqb_refl.
  - destruct (String.eqb k k') eqn:E; simpl; rewrite E; auto.
Qed.

Lemma dict_get_set_other d k k' v :
  k' <> k -> dict_get k' (dict_set d k v) = dict_get k' d.
Proof.
  intros Hne. induction d as [|[k0 v0] d IH]; simpl.
  - destruct (String.eqb k' k) eqn:E; auto.
    apply String.eqb_eq in E. contradiction.
  - destruct (String.eqb k k0) eqn:E; simpl.
    + apply String.eqb_eq in E. subst k0.
      destruct (String.eqb k' k) eqn:E'; auto.
      apply String.eqb_eq in E'. contradiction.
    + now rewrite IH.
Qed.

Lemma dict_mem_set d k k' v :
  dict_mem k' (dict_set d k v) = String.eqb k' k || dict_mem k' d.
Proof.
  unfold dict_mem. destruct (String.eqb k' k) eqn:E.
  - apply String.eqb_eq in E. subst. now rewrite dict_get_set_same.
  - apply String.eqb_neq in E. now rewrite dict_get_set_other.
Qed.

Lemma dict_mem_In d k : dict_mem k d = true <-> In k (map fst d).
Proof.
  unfold dict_mem. induction d as [|[k' v'] d IH]; simpl.
  - split; [discriminate | tauto].
  - destruct (String.eqb k k') eqn:E.
    + apply String.eqb_eq in E. subst. tauto.
    + apply String.eqb_neq in E. rewrite IH. split; [tauto |].
      intros [H | H]; [congruence | exact H].
Qed.

Lemma dict_get_None d k : dict_get k d = None <-> ~ In k (map fst d).
Proof.
  rewrite <- dict_mem_In. unfold dict_mem.
  destruct (dict_get k d); split; intros H; congruence.
Qed.

(** A new key goes last. *)
Lemma dict_set_fresh d k v :
  dict_get k d = None -> dict_set d k v = (d ++ [(k, v)])%list.
Proof.
  induction d as [|[k' v'] d IH]; simpl; auto.
  destruct (String.eqb k k'); [discriminate |].
  intros H. now rewrite IH.
Qed.

(** An assignment never repeats a key. *)
Lemma dict_set_keys d k v :
  map fst (dict_set d k v)
  = if dict_mem k d then map fst d else (map fst d ++ [k])%list.
Proof.
  unfold dict_mem. induction d as [|[k' v'] d IH]; simpl; auto.
  destruct (String.eqb k k') eqn:E; simpl; auto.
  rewrite IH. now destruct (dict_get k d).
Qed.

Lemma dict_set_NoDup d k v :
  NoDup (map fst d) -> NoDup (map fst (dict_set d k v)).
Proof.
  intros H. rewrite dict_set_keys.
  destruct (dict_mem k d) eqn:E; auto.
  apply NoDup_app; auto.
  - constructor; [intros [] | constructor].
  - intros x Hx Hx'. destruct Hx' as [<- | []].
    apply dict_mem_In in Hx. congruence.
Qed.

Lemma dict_get_map_values (W : Type) (f : V -> W) d k :
  dict_get k (map_values f d) = option_map f (dict_get k d).
Proof.
  induction d as [|[k' v'] d IH]; simpl; auto.
  now destruct (String.eqb k k').
Qed.
End DictFacts.

(** ** Flattening the base document *)

Lemma inserts_app l1 l2 d :
  inserts (l1 ++ l2)%list d = inserts l2 (inserts l1 d).
Proof. apply fold_left_app. Qed.

Lemma inserts_mem l : forall d k,
  dict_mem k (inserts l d) = true <-> In k (map fst l) \/ dict_mem k d = true.
Proof.
  induction l as [|[k0 v0] l IH]; intros d k; simpl.
  - tauto.
  - rewrite IH, dict_mem_set, orb_true_iff, String.eqb_eq. simpl.
    split; intros H; intuition auto.
Qed.

Lemma inserts_NoDup l : forall d,
  NoDup (map fst d) -> NoDup (map fst (inserts l d)).
Proof.
  induction l as [|[k0 v0] l IH]; intros d H; simpl; auto.
  apply IH. now apply dict_set_NoDup.
Qed.

(** Insertions under names that are all different and all new are kept
    as they are, in the order they were made. *)
Lemma inserts_fresh l : forall d,
  NoDup (map fst l) ->
  (forall k, In k (map fst l) -> dict_get k d = None) ->
  inserts l d = (d ++ l)%list.
Proof.
  induction l as [|[k0 v0] l IH]; intros d Hnd Hnew; simpl.
  - now rewrite app_nil_r.
  - simpl in Hnd. apply NoDup_cons_iff in Hnd as [Hk0 Hnd].
    rewrite dict_set_fresh by (apply Hnew; simpl; auto).
    rewrite IH; auto.
    + now rewrite <- app_assoc.
    + intros k Hk. apply dict_get_None. rewrite map_app, in_app_iff. simpl.
      intros [H | [H | []]].
      * apply (proj1 (dict_get_None d k)) in H; auto.
        apply Hnew. simpl. auto.
      * subst. contradiction.
Qed.

Lemma postorder_cons name setting rest :
  postorder (PDict ((name, setting) :: rest))
  = ((below setting ++ [(name, setting)]) ++ postorder (PDict rest))%list.
Proof.
  unfold below. simpl. destruct setting; auto.
  rewrite dict_get_map_values. now destruct (dict_get "children" d).
Qed.

Lemma wf_settings_cons name setting rest :
  wf_settings (PDict ((name, setting) :: rest)) = true ->
  (exists fields, setting = PDict fields
     /\ forall children, dict_get "children" fields = Some children ->
          wf_settings children = true)
  /\ wf_settings (PDict rest) = true.
Proof.
  simpl. intros H. apply andb_true_iff in H as [Hn Hr]. split; auto.
  destruct setting; try discriminate. exists d. split; auto.
  intros children E. rewrite dict_get_map_values, E in Hn. exact Hn.
Qed.

Lemma levels_cons name fields rest children :
  dict_get "children" fields = Some children ->
  levels (PDict ((name, PDict fields) :: rest))
  = Nat.max (S (levels children)) (levels (PDict rest)).
Proof.
  intros E. simpl. now rewrite dict_get_map_values, E.
Qed.

Lemma levels_cons_le name setting rest :
  levels (PDict rest) <= levels (PDict ((name, setting) :: rest))
  /\ 1 <= levels (PDict ((name, setting) :: rest)).
Proof.
  assert (E : exists n, levels (PDict ((name, setting) :: rest))
                        = Nat.max (S n) (levels (PDict rest)))
    by (eexists; reflexivity).
  destruct E as [n ->]. lia.
Qed.

Lemma wf_settings_dict tree :
  wf_settings tree = true -> exists nodes, tree = PDict nodes.
Proof. destruct tree; try discriminate. eauto. Qed.

(** With enough nested calls allowed, the loop over the nodes of a
    well-formed settings mapping makes the insertions of its post-order,
    one after the other. *)
Lemma getSetting_postorder fuel : forall nodes s,
  wf_settings (PDict nodes) = true ->
  levels (PDict nodes) <= fuel ->
  for_each (fun (c : string * pyval) s => _getSetting fuel (fst c) (snd c) s)
    nodes s
  = Ok (inserts (postorder (PDict nodes)) s).
Proof.
  induction fuel as [|fuel IH]; intros nodes.
  - destruct nodes as [|[name setting] rest]; intros s _ Hl; [reflexivity |].
    pose proof (levels_cons_le name setting rest). lia.
  - induction nodes as [|[name setting] rest IHn]; intros s Hwf Hl;
      [reflexivity |].
    apply wf_settings_cons in Hwf as [[fields [-> Hch]] Hrest].
    rewrite postorder_cons, !inserts_app.
    pose proof (levels_cons_le name (PDict fields) rest) as [Hle _].
    assert (Hnode : _getSetting (S fuel) name (PDict fields) s
                    = Ok (inserts [(name, PDict fields)]
                            (inserts (below (PDict fields)) s))).
    { simpl. unfold dict_mem.
      destruct (dict_get "children" fields) as [children|] eqn:E; simpl.
      - destruct (wf_settings_dict _ (Hch _ eq_refl)) as [childs ->].
        simpl. rewrite IH.
        + reflexivity.
        + now apply Hch.
        + rewrite (levels_cons name fields rest _ E) in Hl. lia.
      - reflexivity. }
    change (for_each _ ((name, PDict fields) :: rest) s)
      with (s' <- _getSetting (S fuel) name (PDict fields) s ;;
            for_each (fun (c : string * pyval) s =>
                        _getSetting (S fuel) (fst c) (snd c) s) rest s').
    rewrite Hnode. simpl bind. apply IHn; auto. lia.
Qed.

Lemma inserts_get l : forall d k r,
  dict_get k (inserts l d) = Some r -> In (k, r) l \/ dict_get k d = Some r.
Proof.
  induction l as [|[k0 v0] l IH]; intros d k r H; simpl in *; auto.
  apply IH in H as [H | H]; auto.
  destruct (String.eqb k k0) eqn:E.
  - apply String.eqb_eq in E. subst. rewrite dict_get_set_same in H.
    injection H as <-. auto.
  - apply String.eqb_neq in E. rewrite dict_get_set_other in H; auto.
Qed.

(** C7.  Flattening the settings tree of the base document: for a
    well-formed tree and enough nested calls allowed,
    [_loadBasePrinterSettings] succeeds and leaves, as the base document of
    the store, a dictionary whose only field is [overrides], holding the
    flat mapping.  That mapping is built by the insertions of the post-order
    of the tree (the nodes below a node first, then the node itself), so it
    has an entry under the name of every node at any depth and under no
    other name, no name twice, every entry is the record of a node of that
    name, and when no two nodes share a name it is exactly the post-order
    list: no node lost, children before their parent.  The other documents
    of the store stay as they were. *)
Theorem flatten_base_settings (fuel : nat) (definitions : dict pyval)
    (base : list (string * pyval)) (tree : pyval) :
  dict_get (base_def definitions) definitions = Some (PDict base) ->
  dict_get "settings" base = Some tree ->
  wf_settings tree = true ->
  levels tree <= fuel ->
  let flat := inserts (postorder tree) [] in
  exists definitions',
    _loadBasePrinterSettings fuel definitions = Ok definitions'
    /\ dict_get (base_def definitions) definitions'
       = Some (PDict [("overrides", PDict flat)])
    /\ (forall name, name <> base_def definitions ->
          dict_get name definitions' = dict_get name definitions)
    /\ (forall name,
          In name (map fst (postorder tree)) <-> dict_mem name flat = true)
    /\ NoDup (map fst flat)
    /\ (forall name record,
          dict_get name flat = Some record -> In (name, record) (postorder tree))
    /\ (NoDup (map fst (postorder tree)) -> flat = postorder tree).
Proof.
  intros Hbase Htree Hwf Hl flat.
  destruct (wf_settings_dict _ Hwf) as [nodes ->].
  exists (dict_set definitions (base_def definitions)
            (PDict [("overrides", PDict flat)])).
  repeat split.
  - unfold _loadBasePrinterSettings, lookup_definition.
    rewrite Hbase. simpl. rewrite Htree. simpl.
    now rewrite getSetting_postorder by assumption.
  - apply dict_get_set_same.
  - intros name Hne. now apply dict_get_set_other.
  - intros H. apply inserts_mem. auto.
  - intros H. apply inserts_mem in H as [H | H]; [exact H | discriminate].
  - apply inserts_NoDup. constructor.
  - intros name record H. apply inserts_get in H as [H | H];
      [exact H | discriminate].
  - intros Hnd. unfold flat. now rewrite inserts_fresh.
Qed.

(** ** Loading the documents *)
Section LoadFacts.
Variable Path : Type.
Variable path_of : string -> Path.
Variable stem : Path -> string.
Variable parent_dir : Path -> Path.
Variable joinpath : Path -> list string -> Path.
Variable file_exists : Path -> bool.
Variable read_text : Path -> result string.
Variable json_loads : string -> result pyval.

Abbreviation load :=
  (_loadDefinitionFiles path_of stem parent_dir joinpath file_exists
     read_text json_loads).
Abbreviation name_of := (definition_name_of path_of stem).
Abbreviation parent_of := (parent_file parent_dir joinpath).

Lemma load_skips fuel definitions file :
  file_exists file = false \/ dict_mem (name_of file) definitions = true ->
  load (S fuel) definitions file = (definitions, None).
Proof.
  intros H. simpl.
  destruct H as [-> | ->]; simpl; auto. now rewrite orb_true_r.
Qed.

(** Loading never removes a document. *)
Lemma load_grows fuel : forall definitions file name,
  dict_mem name definitions = true ->
  dict_mem name (fst (load fuel definitions file)) = true.
Proof.
  induction fuel as [|fuel IH]; intros definitions file name H; simpl; auto.
  destruct (negb (file_exists file) || dict_mem (name_of file) definitions);
    auto.
  destruct (text <- read_text file ;; json_loads text) as [doc|e]; auto.
  assert (H' : dict_mem name (dict_set definitions (name_of file) doc) = true)
    by (rewrite dict_mem_set, H; apply orb_true_r).
  destruct (Py.contains "inherits" doc) as [[|]|e]; auto.
  destruct (Py.getitem doc "inherits") as [inherits|e]; auto.
Qed.

(** After a call, either the store holds a document under the name of
    the file, or the call left the store as it was. *)
Lemma load_settles fuel definitions file :
  dict_mem (name_of file) (fst (load (S fuel) definitions file)) = true
  \/ fst (load (S fuel) definitions file) = definitions
     /\ (file_exists file = false
         \/ exists e, (text <- read_text file ;; json_loads text) = Raise e).
Proof.
  simpl.
  destruct (file_exists file) eqn:Hex; simpl; [| right; auto].
  destruct (dict_mem (name_of file) definitions) eqn:Hin; simpl; auto.
  destruct (text <- read_text file ;; json_loads text) as [doc|e];
    [left | right; eauto].
  assert (H' : dict_mem (name_of file)
                 (dict_set definitions (name_of file) doc) = true)
    by (rewrite dict_mem_set, String.eqb_refl; reflexivity).
  destruct (Py.contains "inherits" doc) as [[|]|e]; auto.
  destruct (Py.getitem doc "inherits") as [inherits|e]; auto.
  now apply load_grows.
Qed.

(** C6.  [_loadDefinitionFiles] does nothing and raises nothing when
    the file does not exist or a document of the derived name is already
    in the store.  Hence a second call for the same file leaves the store
    as the first call left it (and raises nothing when the first raised
    nothing); and when the parent file of a document does not exist, the
    call stores the document alone and ends without an error. *)
Theorem load_is_idempotent_and_tolerant :
  (forall fuel definitions file,
      file_exists file = false \/ dict_mem (name_of file) definitions = true ->
      load (S fuel) definitions file = (definitions, None))
  /\ (forall fuel fuel' definitions file,
         fst (load fuel' (fst (load (S fuel) definitions file)) file)
         = fst (load (S fuel) definitions file))
  /\ (forall fuel fuel' definitions file,
         snd (load (S fuel) definitions file) = None ->
         load (S fuel') (fst (load (S fuel) definitions file)) file
         = (fst (load (S fuel) definitions file), None))
  /\ (forall fuel definitions file doc inherits,
         file_exists file = true ->
         dict_mem (name_of file) definitions = false ->
         (text <- read_text file ;; json_loads text) = Ok doc ->
         Py.contains "inherits" doc = Ok true ->
         Py.getitem doc "inherits" = Ok inherits ->
         file_exists (parent_of file inherits) = false ->
         load (S (S fuel)) definitions file
         = (dict_set definitions (name_of file) doc, None)).
Proof.
  split; [| split; [| split]].
  - intros. now apply load_skips.
  - intros fuel fuel' definitions file.
    destruct fuel' as [|fuel']; [reflexivity |].
    destruct (load_settles fuel definitions file) as [Hin | [Heq Hwhy]].
    + rewrite load_skips; auto.
    + rewrite Heq. simpl.
      destruct Hwhy as [-> | [e He]]; simpl; auto.
      destruct (negb (file_exists file)
                || dict_mem (name_of file) definitions); auto.
      now rewrite He.
  - intros fuel fuel' definitions file Hnone.
    destruct (load_settles fuel definitions file) as [Hin | [Heq Hwhy]].
    + rewrite load_skips; auto.
    + destruct Hwhy as [Hex | [e He]].
      * rewrite load_skips; auto.
      * rewrite Heq. simpl in Hnone.
        destruct (file_exists file) eqn:Hex;
          [| apply load_skips; auto].
        destruct (dict_mem (name_of file) definitions) eqn:Hin;
          [apply load_skips; auto |].
        simpl in Hnone. rewrite He in Hnone. discriminate.
  - intros fuel definitions file doc inherits Hex Hnew Hdoc Hhas Hinh Hmiss.
    change (load (S (S fuel)) definitions file)
      with (let definition_name := name_of file in
            if negb (file_exists file) || dict_mem definition_name definitions
            then (definitions, None)
            else
              match text <- read_text file ;; json_loads text with
              | Raise e => (definitions, Some e)
              | Ok doc =>
                  let definitions := dict_set definitions definition_name doc in
                  match Py.contains "inherits" doc with
                  | Raise e => (definitions, Some e)
                  | Ok false => (definitions, None)
                  | Ok true =>
                      match Py.getitem doc "inherits" with
                      | Raise e => (definitions, Some e)
                      | Ok inherits =>
                          load (S fuel) definitions (parent_of file inherits)
                      end
                  end
              end).
    cbv zeta. rewrite Hex, Hnew, Hdoc, Hhas, Hinh. simpl negb. simpl orb.
    apply load_skips. auto.
Qed.

End LoadFacts.

(** ** The resolver, one call at a time *)

Lemma key_is_number_spec definitions base base_overrides key numeric :
  dict_get (base_def definitions) definitions = Some (PDict base) ->
  dict_get "overrides" base = Some (PDict base_overrides) ->
  numeric_mode_is base_overrides key numeric ->
  key_is_number definitions key = Ok numeric.
Proof.
  intros Hb Ho Hn. unfold key_is_number, lookup_definition.
  rewrite Hb. simpl. rewrite Ho. simpl. unfold dict_mem, numeric_mode_is in *.
  destruct (dict_get key base_overrides) as [setting|]; simpl.
  - destruct Hn as [type [-> ->]]. reflexivity.
  - now subst.
Qed.

Lemma values_match_compared numeric field value candidate :
  values_match numeric field value candidate
  = compared_equal numeric field value candidate.
Proof.
  unfold values_match, compared_equal, normalized.
  destruct numeric, (str_in field ["default_value"; "value"]); reflexivity.
Qed.

Lemma existsb_values_match numeric field value l :
  existsb (values_match numeric field value) l
  = existsb (compared_equal numeric field value) l.
Proof.
  induction l as [|c l IH]; simpl; auto.
  now rewrite IH, values_match_compared.
Qed.

Lemma check_values_candidates parent key setting field :
  dict_get key parent = Some (PDict setting) ->
  check_values (PDict parent) key field = Ok (candidates setting field).
Proof.
  intros H. unfold check_values, candidates, field_of.
  destruct (str_in field ["default_value"; "value"]);
    cbn [Py.getitem bind]; rewrite H; cbn [Py.get bind].
  - destruct (dict_get "default_value" setting), (dict_get "value" setting);
      reflexivity.
  - destruct (dict_get field setting); reflexivity.
Qed.

(** A call on a document that has overrides runs the loop over the
    proposed fields on them. *)
Lemma resolve_at_overrides fuel definitions key value_dict anc doc parent
    numeric fields :
  dict_get anc definitions = Some (PDict doc) ->
  dict_get "overrides" doc = Some parent ->
  key_is_number definitions key = Ok numeric ->
  Py.items value_dict = Ok fields ->
  _isDefinedInParent (S fuel) definitions key value_dict (PStr anc)
  = fields_loop (_isDefinedInParent fuel definitions key value_dict)
      key parent numeric fields.
Proof.
  intros Hd Ho Hn Hf. simpl. rewrite Hd. simpl. unfold dict_mem.
  rewrite Ho. simpl. rewrite Hn. simpl. rewrite Hf. reflexivity.
Qed.

(** A call on a document without overrides goes on with the document it
    inherits from. *)
Lemma resolve_skips fuel definitions key value_dict anc doc next :
  dict_get anc definitions = Some (PDict doc) ->
  dict_get "overrides" doc = None ->
  dict_get "inherits" doc = Some next ->
  _isDefinedInParent (S fuel) definitions key value_dict (PStr anc)
  = _isDefinedInParent fuel definitions key value_dict next.
Proof.
  intros Hd Ho Hi. simpl. rewrite Hd. simpl. unfold dict_mem.
  rewrite Ho. simpl. rewrite Hi. reflexivity.
Qed.

(** A call on a name that the store does not have raises [KeyError]. *)
Lemma resolve_missing fuel definitions key value_dict anc :
  dict_get anc definitions = None ->
  _isDefinedInParent (S fuel) definitions key value_dict (PStr anc)
  = Raise KeyError.
Proof. intros Hd. simpl. now rewrite Hd. Qed.

(** When the overrides of the ancestor have no entry named [inherits],
    the loop never makes the recursive call: it answers with the first
    proposed field that has an equal candidate, or with no match. *)
Lemma fields_loop_decides recurse key parent setting numeric fields :
  dict_get key parent = Some (PDict setting) ->
  dict_get "inherits" parent = None ->
  fields_loop recurse key (PDict parent) numeric fields
  = Ok match first_match numeric setting fields with
       | Some (field, value) => (true, PStr field, value, PDict parent)
       | None => not_redefined
       end.
Proof.
  intros Hk Hi. induction fields as [|[field value] rest IH]; [reflexivity |].
  cbn [fields_loop first_match]. simpl Py.contains. unfold dict_mem.
  rewrite Hk, Hi. simpl bind.
  rewrite (check_values_candidates parent key setting field Hk). simpl bind.
  rewrite existsb_values_match.
  destruct (existsb _ _); auto.
Qed.

(** When the overrides of the ancestor do not have the key, the answer
    is no match, whatever the ancestor inherits from. *)
Lemma fields_loop_key_absent recurse key parent numeric fields :
  dict_get key parent = None ->
  fields_loop recurse key (PDict parent) numeric fields = Ok not_redefined.
Proof.
  intros Hk. induction fields as [|[field value] rest IH]; [reflexivity |].
  cbn [fields_loop]. simpl Py.contains. unfold dict_mem. rewrite Hk. exact IH.
Qed.

(** ** The resolver: the claims *)

(** C1.  The code at the failing input.  A inherits B inherits C; the
    overrides of B define [speed] with the value 60 and those of C with the
    default value 50.  For the proposed override [speed: {value: 50}] the
    nearest ancestor with overrides, B, defines the key with no matching
    field, and B inherits from C, where the proposed value does match; yet
    the call on B answers no match at once: line 113 looks for [inherits]
    among the overrides of B, not in the document B, so the chain is not
    walked. *)
Theorem chain_not_walked_past_overrides (fuel : nat) :
  dict_get "B" Examples.store_shadow = Some Examples.doc_B60
  /\ Py.getitem Examples.doc_B60 "inherits" = Ok (PStr "C")
  /\ Py.getitem Examples.doc_B60 "overrides" = Ok Examples.overrides_B60
  /\ Py.contains "speed" Examples.overrides_B60 = Ok true
  /\ _isDefinedInParent (S fuel) Examples.store_shadow "speed"
       (PDict [("value", PInt 50)]) (PStr "B")
     = Ok not_redefined
  /\ _isDefinedInParent (S fuel) Examples.store_shadow "speed"
       (PDict [("value", PInt 50)]) (PStr "C")
     = Ok (true, PStr "value", PInt 50, Examples.overrides_C).
Proof. repeat split; reflexivity. Qed.

(** C3, the claim as stated, fails.  The key [speed] has type [float] in
    the flattened base, the ancestor P declares [minimum_value: 10] and the
    override proposes [minimum_value] as the string 10.  Both normalize to
    the string 10.0, so a comparison of normalized strings would find them
    equal; the code compares the raw values, a string and a number, and
    answers no match. *)
Lemma other_fields_compared_raw :
  key_is_number Examples.store_bound "speed" = Ok true
  /\ normalized (PStr "10") = PStr "10.0"
  /\ normalized (PInt 10) = PStr "10.0"
  /\ Py.eq (normalized (PStr "10")) (normalized (PInt 10)) = true
  /\ Py.eq (PStr "10") (PInt 10) = false
  /\ _isDefinedInParent default_limit Examples.store_bound "speed"
       (PDict [("minimum_value", PStr "10")]) (PStr "P")
     = Ok not_redefined.
Proof. repeat split; vm_compute; reflexivity. Qed.

(** C3 (amended).  When the ancestor's overrides define the key and have
    no entry named [inherits], the resolver answers with the first proposed
    field one of whose candidates compares equal, where the comparison is
    [compared_equal]: for a key that is numeric in the flattened base (type
    [float] or [int]) and a proposed field [default_value] or [value], on
    the strings [str(float(x))] of both sides, each side keeping its raw
    value when [float] fails on it; for any other proposed field, such as
    [minimum_value], and for a key absent from the flattened base or of
    another type, with [==] on the raw values. *)
Theorem comparison_by_mode (fuel : nat) (definitions : dict pyval)
    (base base_overrides : dict pyval) (key : string) (numeric : bool)
    (anc : string) (doc parent setting : dict pyval)
    (fields : list (string * pyval)) :
  dict_get (base_def definitions) definitions = Some (PDict base) ->
  dict_get "overrides" base = Some (PDict base_overrides) ->
  numeric_mode_is base_overrides key numeric ->
  dict_get anc definitions = Some (PDict doc) ->
  dict_get "overrides" doc = Some (PDict parent) ->
  dict_get key parent = Some (PDict setting) ->
  dict_get "inherits" parent = None ->
  _isDefinedInParent (S fuel) definitions key (PDict fields) (PStr anc)
  = Ok match first_match numeric setting fields with
       | Some (field, value) => (true, PStr field, value, PDict parent)
       | None => not_redefined
       end.
Proof.
  intros Hb Ho Hn Hd Hp Hk Hi.
  rewrite (resolve_at_overrides fuel definitions key (PDict fields) anc doc
             (PDict parent) numeric fields Hd Hp
             (key_is_number_spec _ _ _ _ _ Hb Ho Hn) eq_refl).
  now apply fields_loop_decides.
Qed.

(** The theorem at the bound given as a string: numeric key, field
    [minimum_value], raw comparison. *)
Lemma comparison_by_mode_witness :
  _isDefinedInParent 1 Examples.store_bound "speed"
    (PDict [("minimum_value", PStr "10")]) (PStr "P")
  = Ok not_redefined.
Proof.
  apply (comparison_by_mode 0 Examples.store_bound
           [("overrides", PDict [("speed", Examples.speed_setting)])]
           [("speed", Examples.speed_setting)] "speed" true "P"
           [("inherits", PStr "fdmprinter"); ("overrides", Examples.overrides_P)]
           [("speed", PDict [("minimum_value", PInt 10)])]
           [("minimum_value", PInt 10)]
           [("minimum_value", PStr "10")]);
    try reflexivity.
  exists (PStr "float"). split; reflexivity.
Defined.



Lemma names_missing_raises definitions key value_dict anc n :
  names_missing definitions key value_dict anc n ->
  forall fuel, n <= fuel ->
    _isDefinedInParent fuel definitions key value_dict anc = Raise KeyError.
Proof.
  induction 1 as [anc Hd | anc doc next n Hd Ho Hi _ IH
                 | anc doc parent setting numeric field value rest next n
                     Hd Ho Hn Hv Hk Hc Hi _ IH];
    intros fuel Hle; (destruct fuel as [|fuel]; [lia |]).
  - now apply resolve_missing.
  - rewrite (resolve_skips fuel definitions key value_dict anc doc next Hd Ho Hi).
    apply IH. lia.
  - subst value_dict.
    rewrite (resolve_at_overrides fuel definitions key
               (PDict ((field, value) :: rest)) anc doc (PDict parent)
               numeric ((field, value) :: rest) Hd Ho Hn eq_refl).
    cbn [fields_loop]. simpl Py.contains. unfold dict_mem. rewrite Hk, Hi.
    simpl bind.
    rewrite (check_values_candidates parent key setting field Hk). simpl bind.
    rewrite existsb_values_match, Hc. simpl Py.getitem. rewrite Hi.
    simpl bind. apply IH. lia.
Qed.

(** ** The rule: [checkRedefineOverride] and [check] *)

Section CheckFacts.
Variable Path : Type.
Variable re_search : string -> string -> result (option re_match).
Variable recursion_limit : nat.

Abbreviation step := (redefine_step re_search recursion_limit).
Abbreviation loop := (redefine_loop re_search recursion_limit).
Abbreviation rule := (checkRedefineOverride re_search recursion_limit).
Abbreviation run_check := (check re_search recursion_limit).

(** The step for an override that the resolver finds redundant and the
    pattern finds in the text. *)
Lemma redundant_step (self : Linter Path) (definition : pyval) (key : string)
    (value_dict inherits child_key child_value parent : pyval)
    (found : re_match) :
  Py.getitem definition "inherits" = Ok inherits ->
  _isDefinedInParent recursion_limit (_definitions self) key value_dict inherits
  = Ok (true, child_key, child_value, parent) ->
  re_search (redefined_pattern key) (_content self) = Ok (Some found) ->
  step self definition key value_dict
  = Ok (Some
          (Diagnostic.make (_file self) rule_name
             ("Overriding " ++ key ++ " with the same value ("
                ++ Py.str child_key ++ ": " ++ Py.str child_value
                ++ ") as defined in parent definition: " ++ Py.str inherits)
             "Warning"
             (fst (span0 found))
             (if single_line (group found (_content self))
              then [Replacement.make (_file self) (fst (span1 found))
                      (String.length (group found (_content self))) ""]
              else []))).
Proof.
  intros Hi Hr Hf. unfold redefine_step, single_line.
  rewrite Hi. simpl bind. rewrite Hr. simpl bind. rewrite Hf. simpl bind.
  rewrite Nat.ltb_antisym.
  now destruct (List.length (Py.splitlines (group found (_content self))) <=? 1)%nat.
Qed.

Lemma loop_app (self : Linter Path) (definition : pyval)
    (before after : list (string * pyval)) :
  loop self definition (before ++ after)%list
  = match raised (loop self definition before) with
    | Some e => loop self definition before
    | None =>
        {| yielded := (yielded (loop self definition before)
                       ++ yielded (loop self definition after))%list;
           raised := raised (loop self definition after) |}
    end.
Proof.
  induction before as [|[key value_dict] before IH];
    cbn [redefine_loop app].
  - now destruct (loop self definition after).
  - destruct (step self definition key value_dict) as [[d|]|e]; auto.
    rewrite IH.
    destruct (loop self definition before) as [ys [e|]]; reflexivity.
Qed.

(** C2 (amended).  A inherits B inherits C, the document B has no
    overrides and the overrides of C define [speed] with the default value
    50.  For the override [speed: {value: 50}] of A the resolver skips B
    and answers redundant, with the overrides of C as the matched parent;
    the diagnostic of the override names [definition['inherits']], the
    immediate parent B, as the parent definition. *)
Theorem chain_override_is_redundant (self : Linter Path)
    (definition docB docC overridesC setting : dict pyval) (b c : string)
    (numeric : bool) (found : re_match) :
  dict_get "inherits" definition = Some (PStr b) ->
  dict_get b (_definitions self) = Some (PDict docB) ->
  dict_get "overrides" docB = None ->
  dict_get "inherits" docB = Some (PStr c) ->
  dict_get c (_definitions self) = Some (PDict docC) ->
  dict_get "overrides" docC = Some (PDict overridesC) ->
  dict_get "speed" overridesC = Some (PDict setting) ->
  dict_get "default_value" setting = Some (PInt 50) ->
  key_is_number (_definitions self) "speed" = Ok numeric ->
  re_search (redefined_pattern "speed") (_content self) = Ok (Some found) ->
  2 <= recursion_limit ->
  _isDefinedInParent recursion_limit (_definitions self) "speed"
    (PDict [("value", PInt 50)]) (PStr b)
  = Ok (true, PStr "value", PInt 50, PDict overridesC)
  /\ exists d,
       step self (PDict definition) "speed" (PDict [("value", PInt 50)])
       = Ok (Some d)
       /\ Diagnostic.message d
          = "Overriding speed with the same value (value: 50) as defined in parent definition: "
            ++ b.
Proof.
  intros Hinh Hb HnoB HinhB Hc HovC Hk Hdv Hn Hf Hlim.
  assert (Hr : _isDefinedInParent recursion_limit (_definitions self) "speed"
                 (PDict [("value", PInt 50)]) (PStr b)
               = Ok (true, PStr "value", PInt 50, PDict overridesC)).
  { destruct recursion_limit as [|[|fuel]]; try lia.
    rewrite (resolve_skips _ _ _ _ b docB (PStr c) Hb HnoB HinhB).
    rewrite (resolve_at_overrides fuel _ "speed" (PDict [("value", PInt 50)])
               c docC (PDict overridesC) numeric [("value", PInt 50)]
               Hc HovC Hn eq_refl).
    cbn [fields_loop]. simpl Py.contains. unfold dict_mem. rewrite Hk.
    simpl bind.
    rewrite (check_values_candidates overridesC "speed" setting "value" Hk).
    simpl bind. unfold candidates, field_of. rewrite Hdv.
    now destruct numeric. }
  split; [exact Hr |].
  eexists. split.
  - apply (redundant_step self (PDict definition) "speed"
             (PDict [("value", PInt 50)]) (PStr b) (PStr "value") (PInt 50)
             (PDict overridesC) found); auto.
    simpl. now rewrite Hinh.
  - reflexivity.
Qed.


(** C8.  When [settings["checks"]] has the flag of the rule set to
    [False], or does not have it, [check] yields its final [None] and
    nothing else, whatever the documents are. *)
Theorem disabled_rule_yields_no_diagnostic (self : Linter Path)
    (settings checks : dict pyval) :
  _settings self = PDict settings ->
  dict_get "checks" settings = Some (PDict checks) ->
  dict_get rule_name checks = Some (PBool false)
  \/ dict_get rule_name checks = None ->
  run_check self = finished [None].
Proof.
  intros Hs Hc Hflag. unfold check. rewrite Hs. simpl Py.getitem.
  rewrite Hc. simpl bind. simpl Py.get.
  destruct Hflag as [-> | ->]; reflexivity.
Qed.

(** C9 (amended).  What [check] yields is a list of diagnostics followed
    by exactly one [None] when the iteration ends without an exception,
    and a list of diagnostics alone when an exception ends it. *)
Theorem check_ends_with_one_None (self : Linter Path) :
  exists diagnostics,
    (raised (run_check self) = None
     /\ yielded (run_check self) = (map Some diagnostics ++ [None])%list)
    \/ (exists e, raised (run_check self) = Some e
                  /\ yielded (run_check self) = map Some diagnostics).
Proof.
  unfold check.
  destruct (checks <- Py.getitem (_settings self) "checks" ;;
            Py.get checks rule_name (PBool false)) as [enabled|e].
  - destruct (Py.truthy enabled).
    + exists (yielded (rule self)).
      destruct (raised (rule self)) as [e|]; simpl; eauto.
    + exists []. left. split; reflexivity.
  - exists []. right. exists e. split; reflexivity.
Qed.

(** C10.  The linted document is not a root and has overrides; the
    overrides before [key] are handled without an exception, and the
    resolution of [key], started at the name the document inherits from,
    comes to look up a name that the store does not have.  Then
    [checkRedefineOverride] yields what the overrides before [key] gave
    and raises [KeyError]. *)
Theorem missing_ancestor_raises_KeyError (self : Linter Path) (name : string)
    (doc : dict pyval) (others : dict pyval)
    (before after : list (string * pyval)) (key : string)
    (value_dict inherits : pyval) (n : nat) :
  _definitions self = (name, PDict doc) :: others ->
  str_in name ["fdmprinter"; "fdmextruder"] = false ->
  dict_get "overrides" doc = Some (PDict (before ++ (key, value_dict) :: after)) ->
  dict_get "inherits" doc = Some inherits ->
  raised (loop self (PDict doc) before) = None ->
  names_missing (_definitions self) key value_dict inherits n ->
  n <= recursion_limit ->
  raised (rule self) = Some KeyError
  /\ yielded (rule self) = yielded (loop self (PDict doc) before).
Proof.
  intros Hdefs Hroot Hov Hinh Hbefore Hmiss Hlim.
  assert (Hstep : step self (PDict doc) key value_dict = Raise KeyError).
  { unfold redefine_step. simpl Py.getitem. rewrite Hinh. simpl bind.
    now rewrite (names_missing_raises _ _ _ _ _ Hmiss recursion_limit Hlim). }
  unfold checkRedefineOverride. rewrite Hdefs.
  cbn [dict_keys map fst lookup_definition dict_get].
  rewrite String.eqb_refl.
  cbn [Py.contains]. unfold dict_mem. rewrite Hov, Hroot.
  cbn [andb negb Py.getitem bind]. rewrite Hov. cbn [bind Py.items].
  rewrite loop_app, Hbefore.
  cbn [redefine_loop]. rewrite Hstep. cbn [aborted yielded raised].
  now rewrite app_nil_r.
Qed.

End CheckFacts.

(** ** The claims on the example documents *)

(** The theorem at the chain A, B, C. *)
Lemma chain_override_is_redundant_witness :
  _isDefinedInParent default_limit Examples.store_chain "speed"
    (PDict [("value", PInt 50)]) (PStr "B")
  = Ok (true, PStr "value", PInt 50, Examples.overrides_C)
  /\ exists d,
       redefine_step Regex.search default_limit
         (Examples.self_chain Examples.settings_on) Examples.doc_A "speed"
         (PDict [("value", PInt 50)])
       = Ok (Some d)
       /\ Diagnostic.message d
          = "Overriding speed with the same value (value: 50) as defined in parent definition: "
            ++ "B".
Proof.
  apply (chain_override_is_redundant PosixPath.t Regex.search default_limit
           (Examples.self_chain Examples.settings_on)
           [("inherits", PStr "B");
            ("overrides", PDict [("speed", PDict [("value", PInt 50)])])]
           [("inherits", PStr "C")]
           [("inherits", PStr "fdmprinter"); ("overrides", Examples.overrides_C)]
           [("speed", PDict [("default_value", PInt 50)])]
           [("default_value", PInt 50)]
           "B" "C" true Examples.found_speed);
    try reflexivity.
  unfold default_limit. lia.
Defined.

(** C2, the claim as stated, fails.  The linter is built from the files
    of A, B, C and the base document; [check] yields one diagnostic for the
    override of [speed] and its message names B, the document A inherits
    from, and nowhere C, whose overrides the value was found in. *)
Lemma chain_diagnostic_names_immediate_parent :
  posix_init Examples.fs_chain Examples.file_A Examples.settings_on
  = Ok (Examples.self_chain Examples.settings_on)
  /\ posix_check (Examples.self_chain Examples.settings_on)
     = finished [Some Examples.diagnostic_A; None]
  /\ Diagnostic.message Examples.diagnostic_A
     = "Overriding speed with the same value (value: 50) as defined in parent definition: B"
  /\ Py.is_substring "C" (Diagnostic.message Examples.diagnostic_A) = false.
Proof. repeat split; vm_compute; reflexivity. Qed.



(** The theorem at a file system that has the file of A and not the file
    of its parent B. *)
Lemma load_is_idempotent_and_tolerant_witness :
  posix_load Examples.fs_orphan 2 [] Examples.file_A
  = ([("A", Examples.doc_A)], None)
  /\ posix_load Examples.fs_orphan 1
       (fst (posix_load Examples.fs_orphan 2 [] Examples.file_A))
       Examples.file_A
     = (fst (posix_load Examples.fs_orphan 2 [] Examples.file_A), None).
Proof.
  pose proof (load_is_idempotent_and_tolerant PosixPath.t PosixPath.of_string
                PosixPath.stem PosixPath.parent PosixPath.joinpath
                (PosixPath.file_exists Examples.fs_orphan)
                (PosixPath.read_text Examples.fs_orphan)
                (PosixPath.json_loads Examples.fs_orphan))
    as [_ [_ [Htwice Hparent]]].
  split.
  - apply (Hparent 0 [] Examples.file_A Examples.doc_A (PStr "B"));
      reflexivity.
  - apply (Htwice 1 0 [] Examples.file_A). reflexivity.
Defined.

(** The theorem at a tree of three levels. *)
Lemma flatten_base_settings_witness :
  exists definitions',
    _loadBasePrinterSettings 3 Examples.store_nested = Ok definitions'
    /\ dict_get "fdmprinter" definitions'
       = Some (PDict [("overrides",
                       PDict (inserts (postorder Examples.settings_tree) []))])
    /\ (forall name, name <> "fdmprinter" ->
          dict_get name definitions' = dict_get name Examples.store_nested)
    /\ (forall name,
          In name (map fst (postorder Examples.settings_tree))
          <-> dict_mem name (inserts (postorder Examples.settings_tree) []) = true)
    /\ NoDup (map fst (inserts (postorder Examples.settings_tree) []))
    /\ (forall name record,
          dict_get name (inserts (postorder Examples.settings_tree) [])
          = Some record ->
          In (name, record) (postorder Examples.settings_tree))
    /\ (NoDup (map fst (postorder Examples.settings_tree)) ->
        inserts (postorder Examples.settings_tree) []
        = postorder Examples.settings_tree).
Proof.
  apply (flatten_base_settings 3 Examples.store_nested
           [("settings", Examples.settings_tree)] Examples.settings_tree);
    reflexivity.
Defined.

(** The theorem at the chain A, B, C, whose override is redundant, with
    the flag set to [False] and with no flag. *)
Lemma disabled_rule_yields_no_diagnostic_witness :
  posix_check (Examples.self_chain Examples.settings_off) = finished [None]
  /\ posix_check (Examples.self_chain Examples.settings_silent)
     = finished [None].
Proof.
  split.
  - apply (disabled_rule_yields_no_diagnostic PosixPath.t Regex.search
             default_limit (Examples.self_chain Examples.settings_off)
             [("checks", PDict [(rule_name, PBool false)])]
             [(rule_name, PBool false)]); try reflexivity.
    left. reflexivity.
  - apply (disabled_rule_yields_no_diagnostic PosixPath.t Regex.search
             default_limit (Examples.self_chain Examples.settings_silent)
             [("checks", PDict [])] []); try reflexivity.
    right. reflexivity.
Defined.

(** C9, the claim as stated, fails.  The document M inherits from the
    base document and overrides [speed] with the value the base has, and
    [speed_wall] with a number in place of an object.  The rule is enabled.
    [check] yields the diagnostic of [speed] and then raises
    [AttributeError] on [speed_wall]: what it yields ends with a
    diagnostic and holds no [None]. *)
Lemma check_can_end_without_None :
  posix_init Examples.fs_malformed Examples.file_M Examples.settings_on
  = Ok Examples.self_malformed
  /\ exists d,
       posix_check Examples.self_malformed
       = aborted [Some d] AttributeError.
Proof. split; [| eexists]; vm_compute; reflexivity. Qed.

(** The theorem at a linter built from files: S inherits from [sub/B],
    whose file is stored under the name B, so that the store has no
    document named [sub/B]. *)
Lemma missing_ancestor_raises_KeyError_witness :
  posix_init Examples.fs_sub Examples.file_S Examples.settings_on
  = Ok Examples.self_sub
  /\ dict_get "sub/B" (_definitions Examples.self_sub) = None
  /\ raised (posix_checkRedefineOverride Examples.self_sub) = Some KeyError
  /\ yielded (posix_checkRedefineOverride Examples.self_sub) = [].
Proof.
  split; [vm_compute; reflexivity |].
  split; [reflexivity |].
  apply (missing_ancestor_raises_KeyError PosixPath.t Regex.search
           default_limit Examples.self_sub "S"
           [("inherits", PStr "sub/B");
            ("overrides", PDict [("speed", PDict [("value", PInt 50)])])]
           [("B", Examples.doc_subB);
            ("fdmprinter", Examples.flat_fdmprinter)]
           [] [] "speed" (PDict [("value", PInt 50)]) (PStr "sub/B") 1);
    try reflexivity.
  - apply missing_here. reflexivity.
  - unfold default_limit. lia.
Defined.


(** * Further properties of the methods *)

Lemma dict_get_app {V : Type} (d d' : dict V) (k : string) :
  dict_get k (d ++ d')%list
  = match dict_get k d with
    | Some v => Some v
    | None => dict_get k d'
    end.
Proof.
  induction d as [|[k0 v0] d IH]; simpl; auto.
  now destruct (String.eqb k k0).
Qed.

Lemma dict_keys_set_present {V : Type} (d : dict V) (k : string) (v : V) :
  dict_mem k d = true -> dict_keys (dict_set d k v) = dict_keys d.
Proof.
  intros H. unfold dict_keys. now rewrite dict_set_keys, H.
Qed.

(** ** Loading, further *)
Section LoadMore.
Variable Path : Type.
Variable path_of : string -> Path.
Variable stem : Path -> string.
Variable parent_dir : Path -> Path.
Variable joinpath : Path -> list string -> Path.
Variable file_exists : Path -> bool.
Variable read_text : Path -> result string.
Variable json_loads : string -> result pyval.

Abbreviation load' :=
  (_loadDefinitionFiles path_of stem parent_dir joinpath file_exists
     read_text json_loads).
Abbreviation name_of' := (definition_name_of path_of stem).
Abbreviation read_json file := (text <- read_text file ;; json_loads text).

Lemma load_appends (fuel : nat) : forall (definitions : dict pyval)
    (file : Path),
  exists added,
    fst (load' fuel definitions file) = (definitions ++ added)%list
    /\ NoDup (map fst added)
    /\ (forall name, In name (map fst added) ->
          dict_get name definitions = None)
    /\ (forall name doc, In (name, doc) added ->
          exists f, file_exists f = true /\ name_of' f = name
                    /\ read_json f = Ok doc).
Proof.
  assert (Hnil : forall d : dict pyval,
             d = (d ++ [])%list /\ NoDup (map fst (@nil (string * pyval)))
             /\ (forall name, In name (map fst (@nil (string * pyval))) ->
                   dict_get name d = None)
             /\ (forall name doc, In (name, doc) (@nil (string * pyval)) ->
                   exists f, file_exists f = true /\ name_of' f = name
                             /\ read_json f = Ok doc)).
  { intros d. rewrite app_nil_r. repeat split; try constructor;
      intros; contradiction. }
  induction fuel as [|fuel IH]; intros definitions file.
  - exists []. apply Hnil.
  - simpl.
    destruct (file_exists file) eqn:Hex; simpl;
      [| exists []; apply Hnil].
    destruct (dict_mem (name_of' file) definitions) eqn:Hin;
      [exists []; apply Hnil |].
    destruct (read_json file) as [doc|e] eqn:Hdoc;
      [| exists []; apply Hnil].
    assert (Hfresh : dict_get (name_of' file) definitions = None)
      by (unfold dict_mem in Hin;
          destruct (dict_get (name_of' file) definitions);
          [discriminate | reflexivity]).
    rewrite (dict_set_fresh _ _ doc Hfresh).
    assert (Hone : exists added,
               (definitions ++ [(name_of' file, doc)])%list
               = (definitions ++ added)%list
               /\ NoDup (map fst added)
               /\ (forall name, In name (map fst added) ->
                     dict_get name definitions = None)
               /\ (forall name doc', In (name, doc') added ->
                     exists f, file_exists f = true /\ name_of' f = name
                               /\ read_json f = Ok doc')).
    { exists [(name_of' file, doc)]. repeat split.
      - constructor; [intros [] | constructor].
      - intros name [<- | []]. exact Hfresh.
      - intros name doc' [H | []]. injection H as <- <-. eauto. }
    destruct (Py.contains "inherits" doc) as [[|]|e]; auto.
    destruct (Py.getitem doc "inherits") as [inherits|e]; auto.
    destruct (IH (definitions ++ [(name_of' file, doc)])%list
                (parent_file parent_dir joinpath file inherits))
      as [added [Heq [Hnd [Hnew Hsrc]]]].
    exists ((name_of' file, doc) :: added). repeat split.
    + rewrite Heq, <- app_assoc. reflexivity.
    + simpl. constructor; auto. intros Hbad. apply Hnew in Hbad.
      rewrite dict_get_app, Hfresh in Hbad. simpl in Hbad.
      rewrite String.eqb_refl in Hbad. discriminate.
    + intros name [<- | Hn]; [exact Hfresh |]. apply Hnew in Hn.
      rewrite dict_get_app in Hn.
      now destruct (dict_get name definitions).
    + intros name doc' [H | H]; [injection H as <- <-; eauto |].
      now apply Hsrc.
Qed.

(** X1.  [_loadDefinitionFiles] only appends to the store: whatever the
    file, the depth allowed and the outcome, the store after the call is
    the store before it followed by the documents the call added.  So a
    document already stored keeps its place and its content, the first
    document stays the first, no name is added twice or over an existing
    one, and each added document is what was read from an existing file
    of that derived name. *)
Theorem load_only_appends (fuel : nat) (definitions : dict pyval)
    (file : Path) :
  exists added,
    fst (load' fuel definitions file) = (definitions ++ added)%list
    /\ NoDup (map fst added)
    /\ (forall name, In name (map fst added) ->
          dict_get name definitions = None)
    /\ (forall name doc, dict_get name definitions = Some doc ->
          dict_get name (fst (load' fuel definitions file)) = Some doc)
    /\ (forall name doc, In (name, doc) added ->
          exists f, file_exists f = true /\ name_of' f = name
                    /\ read_json f = Ok doc).
Proof.
  destruct (load_appends fuel definitions file)
    as [added [Heq [Hnd [Hnew Hsrc]]]].
  exists added. repeat split; auto.
  intros name doc H. now rewrite Heq, dict_get_app, H.
Qed.

Lemma not_loaded_shrinks (names : list string) (definitions : dict pyval)
    (name : string) (doc : pyval) :
  In name names ->
  dict_mem name definitions = false ->
  List.length (not_loaded names (dict_set definitions name doc))
  < List.length (not_loaded names definitions).
Proof.
  intros Hin Hnew. unfold not_loaded.
  induction names as [|n names IH]; [contradiction |].
  assert (Hle : forall l,
             List.length
               (filter (fun x => negb (dict_mem x (dict_set definitions name doc)))
                  l)
             <= List.length
                  (filter (fun x => negb (dict_mem x definitions)) l)).
  { induction l as [|x l IHl]; simpl; auto.
    rewrite dict_mem_set.
    destruct (String.eqb x name), (dict_mem x definitions); simpl; lia. }
  simpl. rewrite dict_mem_set.
  destruct Hin as [-> | Hin].
  - rewrite String.eqb_refl, Hnew. simpl. specialize (Hle names). lia.
  - specialize (IH Hin).
    destruct (String.eqb n name), (dict_mem n definitions); simpl; lia.
Qed.

(** X2.  The recursion of [_loadDefinitionFiles] is bounded by the number
    of document names still to load: when the derived names of all the
    files that exist are among [names], any two depth limits above the
    number of those names not yet in the store give the same store and
    the same outcome.  A chain of [inherits] that comes back to a document
    already loaded therefore ends the loading; it cannot use up the
    depth. *)
Theorem load_depth_is_bounded (names : list string) :
  (forall f, file_exists f = true -> In (name_of' f) names) ->
  forall (fuel fuel' : nat) (definitions : dict pyval) (file : Path),
    List.length (not_loaded names definitions) < fuel ->
    List.length (not_loaded names definitions) < fuel' ->
    load' fuel definitions file = load' fuel' definitions file.
Proof.
  intros Hnames. induction fuel as [|fuel IH];
    intros fuel' definitions file Hf Hf'; [lia |].
  destruct fuel' as [|fuel']; [lia |].
  simpl.
  destruct (file_exists file) eqn:Hex; simpl; auto.
  destruct (dict_mem (name_of' file) definitions) eqn:Hin; auto.
  destruct (read_json file) as [doc|e]; auto.
  destruct (Py.contains "inherits" doc) as [[|]|e]; auto.
  destruct (Py.getitem doc "inherits") as [inherits|e]; auto.
  pose proof (not_loaded_shrinks names definitions (name_of' file) doc
                (Hnames file Hex) Hin).
  apply IH; lia.
Qed.

End LoadMore.

(** ** The resolver, further *)

Lemma skips_resolve (definitions : dict pyval) (key : string)
    (value_dict a b : pyval) (k : nat) :
  skips definitions a k b ->
  (forall fuel,
      _isDefinedInParent (k + fuel) definitions key value_dict a
      = _isDefinedInParent fuel definitions key value_dict b)
  /\ (forall fuel, fuel < k ->
        _isDefinedInParent fuel definitions key value_dict a
        = Raise RecursionError).
Proof.
  induction 1 as [a | a doc next b k Hd Ho Hi _ [IH1 IH2]]; split.
  - reflexivity.
  - intros fuel H. lia.
  - intros fuel. cbn [Nat.add].
    rewrite (resolve_skips (k + fuel) definitions key value_dict a doc next
               Hd Ho Hi).
    apply IH1.
  - intros [|fuel] H; [reflexivity |].
    rewrite (resolve_skips fuel definitions key value_dict a doc next Hd Ho Hi).
    destruct (Nat.eq_dec fuel k) as [-> | Hne].
    + replace k with (k + 0) at 1 by lia. now rewrite IH1.
    + apply IH2. lia.
Qed.

(** X3.  Documents without overrides are skipped, however many there
    are: when [k] such documents lead from the ancestor [a] to [b], the
    resolution started at [a] with [k] more nested calls allowed is the
    resolution started at [b]; with [k] calls or fewer allowed it raises
    [RecursionError]. *)
Theorem skipped_documents_cost_depth (definitions : dict pyval)
    (key : string) (value_dict a b : pyval) (k : nat) :
  skips definitions a k b ->
  (forall fuel,
      _isDefinedInParent (k + fuel) definitions key value_dict a
      = _isDefinedInParent fuel definitions key value_dict b)
  /\ (forall fuel, fuel <= k ->
        _isDefinedInParent fuel definitions key value_dict a
        = Raise RecursionError).
Proof.
  intros H.
  destruct (skips_resolve definitions key value_dict a b k H) as [Hgo Hstop].
  split; [exact Hgo |].
  intros fuel Hle. destruct (Nat.eq_dec fuel k) as [-> | Hne].
  - replace k with (k + 0) at 1 by lia. now rewrite Hgo.
  - apply Hstop. lia.
Qed.

(** The theorem at the chain A, B, C: from B, one document is skipped. *)
Lemma skipped_documents_cost_depth_witness :
  _isDefinedInParent 2 Examples.store_chain "speed"
    (PDict [("value", PInt 50)]) (PStr "B")
  = _isDefinedInParent 1 Examples.store_chain "speed"
      (PDict [("value", PInt 50)]) (PStr "C")
  /\ _isDefinedInParent 0 Examples.store_chain "speed"
       (PDict [("value", PInt 50)]) (PStr "B")
     = Raise RecursionError.
Proof.
  assert (H : skips Examples.store_chain (PStr "B") 1 (PStr "C")).
  { apply (skips_one Examples.store_chain "B" [("inherits", PStr "C")]
             (PStr "C") (PStr "C") 0); try reflexivity.
    apply skips_none. }
  destruct (skipped_documents_cost_depth Examples.store_chain "speed"
              (PDict [("value", PInt 50)]) (PStr "B") (PStr "C") 1 H)
    as [H1 H2].
  split.
  - exact (H1 1).
  - apply H2. lia.
Defined.

(** X4.  The resolver has no guard against a cycle: when documents
    without overrides lead from an ancestor back to itself, the resolution
    started there raises [RecursionError] whatever depth is allowed. *)
Theorem resolver_cycle_exhausts_depth (definitions : dict pyval)
    (key : string) (value_dict a : pyval) (k : nat) :
  skips definitions a (S k) a ->
  forall fuel,
    _isDefinedInParent fuel definitions key value_dict a = Raise RecursionError.
Proof.
  intros Hcycle fuel.
  destruct (skips_resolve definitions key value_dict a a (S k) Hcycle)
    as [Hgo Hstop].
  induction fuel as [fuel IH] using lt_wf_ind.
  destruct (Nat.lt_ge_cases fuel (S k)) as [Hlt | Hge].
  - now apply Hstop.
  - replace fuel with (S k + (fuel - S k)) by lia.
    rewrite Hgo. apply IH. lia.
Qed.

(** The theorem at two documents that inherit from each other. *)
Lemma resolver_cycle_exhausts_depth_witness :
  _isDefinedInParent default_limit MoreExamples.store_cycle "speed"
    (PDict [("value", PInt 50)]) (PStr "X")
  = Raise RecursionError.
Proof.
  apply (resolver_cycle_exhausts_depth MoreExamples.store_cycle "speed"
           (PDict [("value", PInt 50)]) (PStr "X") 1).
  apply (skips_one MoreExamples.store_cycle "X" [("inherits", PStr "Y")]
           (PStr "Y") (PStr "X") 1); try reflexivity.
  apply (skips_one MoreExamples.store_cycle "Y" [("inherits", PStr "X")]
           (PStr "X") (PStr "X") 0); try reflexivity.
  apply skips_none.
Defined.

(** X5.  [default_value] and [value] are interchangeable in an override
    of one field: proposing a value as [default_value] or as [value] gives
    the same verdict (redundant or not, or the same exception), the same
    matched value and the same matched parent, for every store, key,
    ancestor and depth.  Only the reported field name differs. *)
Theorem value_and_default_value_interchangeable (fuel : nat)
    (definitions : dict pyval) (key : string) (value anc : pyval) :
  result_map (fun r : resolution => (is_redefined r, snd (fst r), snd r))
    (_isDefinedInParent fuel definitions key
       (PDict [("default_value", value)]) anc)
  = result_map (fun r : resolution => (is_redefined r, snd (fst r), snd r))
      (_isDefinedInParent fuel definitions key (PDict [("value", value)]) anc).
Proof.
  revert anc. induction fuel as [|fuel IH]; intros anc; [reflexivity |].
  cbn [_isDefinedInParent].
  destruct (lookup_definition definitions anc) as [doc|e]; [| reflexivity].
  cbn [bind].
  destruct (Py.contains "overrides" doc) as [has|e]; [| reflexivity].
  cbn [bind]. destruct has; cbn [negb].
  - destruct (Py.getitem doc "overrides") as [parent|e]; [| reflexivity].
    cbn [bind].
    destruct (key_is_number definitions key) as [numeric|e]; [| reflexivity].
    cbn [bind Py.items fields_loop].
    destruct (Py.contains key parent) as [[|]|e]; try reflexivity.
    cbn [bind].
    change (check_values parent key "default_value")
      with (check_values parent key "value").
    destruct (check_values parent key "value") as [cvs|e]; [| reflexivity].
    cbn [bind].
    change (values_match numeric "default_value" value)
      with (values_match numeric "value" value).
    destruct (existsb (values_match numeric "value" value) cvs);
      [reflexivity |].
    destruct (Py.contains "inherits" parent) as [[|]|e]; try reflexivity.
    cbn [bind].
    destruct (Py.getitem parent "inherits") as [inherits|e]; [| reflexivity].
    cbn [bind]. apply IH.
  - destruct (Py.getitem doc "inherits") as [inherits|e]; [| reflexivity].
    cbn [bind]. apply IH.
Qed.

(** ** Flattening and construction, further *)

Lemma flatten_in_place (fuel : nat)
    (definitions definitions' : dict pyval) :
  _loadBasePrinterSettings fuel definitions = Ok definitions' ->
  dict_keys definitions' = dict_keys definitions
  /\ base_def definitions' = base_def definitions
  /\ (forall name, name <> base_def definitions ->
        dict_get name definitions' = dict_get name definitions)
  /\ (exists flat, dict_get (base_def definitions) definitions'
                   = Some (PDict [("overrides", PDict flat)]))
  /\ (forall fuel', _loadBasePrinterSettings fuel' definitions'
                    = Raise KeyError).
Proof.
  unfold _loadBasePrinterSettings, lookup_definition.
  destruct (dict_get (base_def definitions) definitions) as [base|] eqn:Hb;
    [| discriminate].
  cbn [bind].
  destruct (Py.getitem base "settings") as [tree|e]; [| discriminate].
  cbn [bind].
  destruct (Py.items tree) as [nodes|e]; [| discriminate].
  cbn [bind].
  match goal with
  | |- context [for_each ?body nodes []] =>
      destruct (for_each body nodes []) as [flat|e]; [| discriminate]
  end.
  cbn [bind]. intros H. injection H as <-.
  assert (Hmem : dict_mem (base_def definitions) definitions = true)
    by (unfold dict_mem; now rewrite Hb).
  assert (Hkeys : dict_keys
                    (dict_set definitions (base_def definitions)
                       (PDict [("overrides", PDict flat)]))
                  = dict_keys definitions)
    by (now apply dict_keys_set_present).
  assert (Hbase : base_def
                    (dict_set definitions (base_def definitions)
                       (PDict [("overrides", PDict flat)]))
                  = base_def definitions).
  { unfold base_def at 1 3. rewrite dict_mem_set.
    unfold base_def.
    destruct (dict_mem "fdmextruder" definitions) eqn:E; [reflexivity |].
    reflexivity. }
  repeat split; auto.
  - intros name Hne. now apply dict_get_set_other.
  - exists flat. apply dict_get_set_same.
  - intros fuel'. rewrite Hbase, dict_get_set_same. reflexivity.
Qed.

(** X6.  Flattening keeps every document in its place: when
    [_loadBasePrinterSettings] succeeds, the store has the same names in
    the same order, so the first document, the one that is linted, and the
    choice of the base document are unchanged, and every document but the
    base is as it was.  The step cannot be made twice: on its own result
    it raises [KeyError], the base document having no [settings] left. *)
Theorem flattening_keeps_the_store_in_place (fuel : nat)
    (definitions definitions' : dict pyval) :
  _loadBasePrinterSettings fuel definitions = Ok definitions' ->
  dict_keys definitions' = dict_keys definitions
  /\ base_def definitions' = base_def definitions
  /\ (forall name, name <> base_def definitions ->
        dict_get name definitions' = dict_get name definitions)
  /\ (exists flat, dict_get (base_def definitions) definitions'
                   = Some (PDict [("overrides", PDict flat)]))
  /\ (forall fuel', _loadBasePrinterSettings fuel' definitions'
                    = Raise KeyError).
Proof. apply flatten_in_place. Qed.

(** The theorem at the store of the nested settings tree. *)
Lemma flattening_keeps_the_store_in_place_witness :
  exists definitions',
    _loadBasePrinterSettings 3 Examples.store_nested = Ok definitions'
    /\ dict_keys definitions' = ["A"; "fdmprinter"]
    /\ _loadBasePrinterSettings 3 definitions' = Raise KeyError.
Proof.
  eexists. split; [reflexivity |].
  destruct (flattening_keeps_the_store_in_place 3 Examples.store_nested _
              eq_refl) as [Hk [_ [_ [_ Htwice]]]].
  split; [exact Hk | apply Htwice].
Defined.

Section ConstructionFacts.
Variable Path : Type.
Variable path_of : string -> Path.
Variable stem : Path -> string.
Variable parent_dir : Path -> Path.
Variable joinpath : Path -> list string -> Path.
Variable file_exists : Path -> bool.
Variable read_text : Path -> result string.
Variable json_loads : string -> result pyval.
Variable recursion_limit : nat.

Abbreviation load_all :=
  (_loadDefinitionFiles path_of stem parent_dir joinpath file_exists
     read_text json_loads).
Abbreviation make :=
  (__init__ path_of stem parent_dir joinpath file_exists read_text json_loads
     recursion_limit).
Abbreviation named := (definition_name_of path_of stem).

Lemma construction_without_root (file : Path) (settings : pyval) :
  dict_mem "fdmextruder" (fst (load_all recursion_limit [] file)) = false ->
  dict_mem "fdmprinter" (fst (load_all recursion_limit [] file)) = false ->
  (exists e, make file settings = Raise e)
  /\ (snd (load_all recursion_limit [] file) = None ->
      (exists text, read_text file = Ok text) ->
      make file settings = Raise KeyError).
Proof.
  intros He Hp. unfold __init__.
  destruct (load_all recursion_limit [] file) as [definitions [e|]] eqn:Hl;
    simpl in He, Hp.
  - split; [eauto | discriminate].
  - assert (Hbase : _loadBasePrinterSettings recursion_limit definitions
                    = Raise KeyError).
    { unfold _loadBasePrinterSettings, lookup_definition, base_def.
      rewrite He. unfold dict_mem in Hp.
      destruct (dict_get "fdmprinter" definitions); [discriminate |].
      reflexivity. }
    split.
    + destruct (read_text file) as [text|e]; cbn [bind].
      * rewrite Hbase. exists KeyError. reflexivity.
      * exists e. reflexivity.
    + intros _ [text ->]. cbn [bind]. now rewrite Hbase.
Qed.

(** X7.  The tolerance of a missing parent file does not reach the
    construction of the linter: for a file that exists and parses, whose
    document is not a root and names a parent whose file does not exist,
    loading stores the document alone, no base document is in the store,
    and [__init__] raises [KeyError] when it comes to flatten the base
    settings. *)
Theorem construction_fails_without_parent_file (file : Path)
    (settings doc inherits : pyval) :
  file_exists file = true ->
  (text <- read_text file ;; json_loads text) = Ok doc ->
  Py.contains "inherits" doc = Ok true ->
  Py.getitem doc "inherits" = Ok inherits ->
  file_exists (parent_file parent_dir joinpath file inherits) = false ->
  str_in (named file) ["fdmprinter"; "fdmextruder"] = false ->
  2 <= recursion_limit ->
  load_all recursion_limit [] file = ([(named file, doc)], None)
  /\ make file settings = Raise KeyError.
Proof.
  intros Hex Hdoc Hhas Hinh Hmiss Hroot Hlim.
  assert (Hload : load_all recursion_limit [] file
                  = ([(named file, doc)], None)).
  { destruct recursion_limit as [|[|fuel]]; try lia.
    change (load_all (S (S fuel)) [] file)
      with (let definition_name := named file in
            if negb (file_exists file)
               || dict_mem definition_name ([] : dict pyval)
            then (([] : dict pyval), None)
            else
              match text <- read_text file ;; json_loads text with
              | Raise e => (([] : dict pyval), Some e)
              | Ok doc =>
                  let definitions :=
                    dict_set ([] : dict pyval) definition_name doc in
                  match Py.contains "inherits" doc with
                  | Raise e => (definitions, Some e)
                  | Ok false => (definitions, None)
                  | Ok true =>
                      match Py.getitem doc "inherits" with
                      | Raise e => (definitions, Some e)
                      | Ok inherits =>
                          load_all (S fuel) definitions
                            (parent_file parent_dir joinpath file inherits)
                      end
                  end
              end).
    cbv zeta. rewrite Hex, Hdoc, Hhas, Hinh. cbn [negb orb dict_mem dict_get].
    apply load_skips. auto. }
  split; [exact Hload |].
  assert (Hne : forall root, In root ["fdmprinter"; "fdmextruder"] ->
                  String.eqb root (named file) = false).
  { intros root Hin. simpl in Hroot.
    apply orb_false_iff in Hroot as [H1 H2].
    apply orb_false_iff in H2 as [H2 _].
    destruct Hin as [<- | [<- | []]]; rewrite String.eqb_sym; assumption. }
  apply construction_without_root.
  - rewrite Hload. unfold dict_mem. cbn [fst dict_get].
    now rewrite (Hne "fdmextruder") by (simpl; auto).
  - rewrite Hload. unfold dict_mem. cbn [fst dict_get].
    now rewrite (Hne "fdmprinter") by (simpl; auto).
  - now rewrite Hload.
  - destruct (read_text file) as [text|e]; [eauto | discriminate].
Qed.

(** X8.  What a successful construction establishes: the linter keeps
    the file and the settings it was given and the text of the file; the
    file exists; the first document of the store, the one
    [checkRedefineOverride] lints, is stored under the derived name of the
    file; no name occurs twice in the store; and the base document is in
    the store, consisting of its flat [overrides] only. *)
Theorem construction_establishes (file : Path) (settings : pyval)
    (self : Linter Path) :
  make file settings = Ok self ->
  _file self = file
  /\ _settings self = settings
  /\ read_text file = Ok (_content self)
  /\ file_exists file = true
  /\ (exists others, dict_keys (_definitions self) = named file :: others)
  /\ NoDup (dict_keys (_definitions self))
  /\ (exists flat,
        dict_get (base_def (_definitions self)) (_definitions self)
        = Some (PDict [("overrides", PDict flat)])).
Proof.
  unfold __init__.
  destruct (load_all recursion_limit [] file) as [definitions [e|]] eqn:Hl;
    [discriminate |].
  destruct (read_text file) as [content|e] eqn:Hc; [| discriminate].
  cbn [bind].
  destruct (_loadBasePrinterSettings recursion_limit definitions)
    as [definitions'|e] eqn:Hf; [| discriminate].
  cbn [bind]. intros H. injection H as <-. cbn [_file _settings _content
    _definitions].
  destruct (flatten_in_place recursion_limit definitions definitions' Hf)
    as [Hkeys [Hbase [_ [Hflat _]]]].
  destruct (load_appends Path path_of stem parent_dir joinpath file_exists
              read_text json_loads recursion_limit [] file)
    as [added [Heq [Hnd _]]].
  rewrite Hl in Heq. cbn [fst app] in Heq. subst added.
  assert (Hstart : file_exists file = true
                   /\ exists others,
                        dict_keys definitions = named file :: others).
  { destruct recursion_limit as [|fuel]; [discriminate |].
    simpl in Hl.
    destruct (file_exists file) eqn:Hex; simpl in Hl.
    - split; [reflexivity |].
      destruct (text <- read_text file ;; json_loads text) as [doc|e];
        [| discriminate].
      assert (Hgrow : forall r : dict pyval * option exn,
                 (exists added, fst r = ([(named file, doc)] ++ added)%list) ->
                 r = (definitions, None) ->
                 exists others, dict_keys definitions = named file :: others).
      { intros r [added Hr] ->. simpl in Hr. rewrite Hr. simpl. eauto. }
      destruct (Py.contains "inherits" doc) as [[|]|e]; try discriminate.
      + destruct (Py.getitem doc "inherits") as [inherits|e];
          [| discriminate].
        destruct (load_appends Path path_of stem parent_dir joinpath
                    file_exists read_text json_loads fuel
                    [(named file, doc)]
                    (parent_file parent_dir joinpath file inherits))
          as [added [Ha _]].
        apply (Hgrow _ (ex_intro _ added Ha) Hl).
      + injection Hl as <-. simpl. eauto.
    - injection Hl as <-. exfalso.
      unfold _loadBasePrinterSettings, lookup_definition in Hf.
      simpl in Hf. discriminate. }
  destruct Hstart as [Hex [others Hothers]].
  repeat split; auto.
  - exists others. now rewrite Hkeys.
  - rewrite Hkeys. exact Hnd.
  - rewrite Hbase. exact Hflat.
Qed.

End ConstructionFacts.

(** ** The rule, further *)
Section RuleFacts.
Variable Path : Type.
Variable re_search : string -> string -> result (option re_match).
Variable recursion_limit : nat.

Abbreviation one_step := (redefine_step re_search recursion_limit).
Abbreviation all_steps := (redefine_loop re_search recursion_limit).
Abbreviation the_rule := (checkRedefineOverride re_search recursion_limit).
Abbreviation the_check := (check re_search recursion_limit).

(** X9.  A root document is never reported: when the first document of
    the store is named [fdmprinter] or [fdmextruder], whatever its
    overrides hold, and likewise when it has no overrides,
    [checkRedefineOverride] yields nothing and raises nothing, and the
    enabled [check] yields its final [None] alone. *)
Theorem roots_and_plain_documents_yield_nothing (self : Linter Path)
    (name : string) (doc others : dict pyval) (settings checks : dict pyval) :
  _definitions self = (name, PDict doc) :: others ->
  str_in name ["fdmprinter"; "fdmextruder"] = true
  \/ dict_get "overrides" doc = None ->
  the_rule self = finished []
  /\ (_settings self = PDict settings ->
      dict_get "checks" settings = Some (PDict checks) ->
      the_check self = finished [None]).
Proof.
  intros Hdefs Hwhy.
  assert (Hrule : the_rule self = finished []).
  { unfold checkRedefineOverride. rewrite Hdefs.
    cbn [dict_keys map fst lookup_definition dict_get].
    rewrite String.eqb_refl. cbn [Py.contains]. unfold dict_mem.
    destruct Hwhy as [-> | ->].
    - now destruct (dict_get "overrides" doc).
    - reflexivity. }
  split; [exact Hrule |].
  intros Hs Hc. unfold check. rewrite Hs. cbn [Py.getitem].
  rewrite Hc. cbn [bind Py.get].
  destruct (dict_get rule_name checks) as [flag|]; cbn [Py.truthy].
  - destruct (Py.truthy flag); [now rewrite Hrule | reflexivity].
  - reflexivity.
Qed.

Lemma step_diagnostic (self : Linter Path) (definition : pyval)
    (key : string) (value_dict : pyval) (d : Diagnostic.t Path) :
  one_step self definition key value_dict = Ok (Some d) ->
  Diagnostic.file d = _file self
  /\ Diagnostic.diagnostic_name d = rule_name
  /\ Diagnostic.level d = "Warning"
  /\ List.length (Diagnostic.replacements d) <= 1
  /\ Forall (fun r => Replacement.file r = _file self
                      /\ Replacement.replacement_text r = "")
       (Diagnostic.replacements d).
Proof.
  unfold redefine_step.
  destruct (Py.getitem definition "inherits") as [inherits|e];
    [| discriminate].
  cbn [bind].
  destruct (_isDefinedInParent recursion_limit (_definitions self) key
              value_dict inherits) as [[[[flag child_key] child_value] parent]|e];
    [| discriminate].
  cbn [bind]. destruct flag; [| discriminate].
  destruct (re_search (redefined_pattern key) (_content self))
    as [[found|]|e]; try discriminate.
  cbn [bind]. intros H. injection H as <-.
  cbn [Diagnostic.file Diagnostic.diagnostic_name Diagnostic.level
       Diagnostic.replacements].
  repeat split;
    destruct (1 <? List.length (Py.splitlines (group found (_content self))))%nat;
    simpl; auto.
Qed.

(** X10.  Every diagnostic that [checkRedefineOverride] yields, up to the
    end or up to an exception, is a warning of the rule for the linted
    file, with at most one replacement, which is for the same file and
    replaces by the empty text; and there are no more diagnostics than
    the linted document has overrides. *)
Theorem diagnostics_are_warnings_of_the_rule (self : Linter Path)
    (definition : pyval) (overrides : list (string * pyval)) :
  Forall
    (fun d => Diagnostic.file d = _file self
              /\ Diagnostic.diagnostic_name d = rule_name
              /\ Diagnostic.level d = "Warning"
              /\ List.length (Diagnostic.replacements d) <= 1
              /\ Forall (fun r => Replacement.file r = _file self
                                  /\ Replacement.replacement_text r = "")
                   (Diagnostic.replacements d))
    (yielded (all_steps self definition overrides))
  /\ List.length (yielded (all_steps self definition overrides))
     <= List.length overrides
  /\ (forall name doc others items,
        _definitions self = (name, PDict doc) :: others ->
        dict_get "overrides" doc = Some (PDict items) ->
        str_in name ["fdmprinter"; "fdmextruder"] = false ->
        the_rule self = all_steps self (PDict doc) items).
Proof.
  split; [| split].
  - induction overrides as [|[key value_dict] rest IH];
      cbn [redefine_loop]; [constructor |].
    destruct (one_step self definition key value_dict) as [[d|]|e] eqn:Hs;
      cbn [yielded finished aborted]; auto.
    constructor; auto.
    exact (step_diagnostic self definition key value_dict d Hs).
  - induction overrides as [|[key value_dict] rest IH];
      cbn [redefine_loop]; [simpl; lia |].
    destruct (one_step self definition key value_dict) as [[d|]|e];
      simpl in *; lia.
  - intros name doc others items Hdefs Hov Hroot.
    unfold checkRedefineOverride. rewrite Hdefs.
    cbn [dict_keys map fst lookup_definition dict_get].
    rewrite String.eqb_refl. cbn [Py.contains]. unfold dict_mem.
    rewrite Hov, Hroot. cbn [andb negb Py.getitem bind]. rewrite Hov.
    reflexivity.
Qed.

End RuleFacts.

(** ** The further properties on the example documents *)

Lemma posix_path_eqb_eq (p q : PosixPath.t) :
  PosixPath.eqb p q = true -> p = q.
Proof.
  destruct p as [a ps], q as [b qs]. unfold PosixPath.eqb. simpl.
  intros H. apply andb_true_iff in H as [H Hall].
  apply andb_true_iff in H as [Ha Hlen].
  apply Bool.eqb_prop in Ha. subst b. f_equal.
  apply Nat.eqb_eq in Hlen. revert qs Hlen Hall.
  induction ps as [|x ps IH]; intros [|y qs] Hlen Hall; try discriminate;
    auto.
  simpl in Hall. apply andb_true_iff in Hall as [Hxy Hall].
  apply String.eqb_eq in Hxy. subst y. f_equal.
  apply IH; simpl in Hlen; auto.
Qed.

(** The theorem at two files that inherit from each other: loading ends
    with both documents stored, at depth 3 as at depth 1000. *)
Lemma load_depth_is_bounded_witness :
  posix_load MoreExamples.fs_cycle 3 [] MoreExamples.file_X
  = posix_load MoreExamples.fs_cycle default_limit [] MoreExamples.file_X
  /\ posix_load MoreExamples.fs_cycle 3 [] MoreExamples.file_X
     = (MoreExamples.store_cycle, None).
Proof.
  split; [| reflexivity].
  apply (load_depth_is_bounded PosixPath.t PosixPath.of_string PosixPath.stem
           PosixPath.parent PosixPath.joinpath
           (PosixPath.file_exists MoreExamples.fs_cycle)
           (PosixPath.read_text MoreExamples.fs_cycle)
           (PosixPath.json_loads MoreExamples.fs_cycle)
           ["X"; "Y"]).
  - intros f. unfold PosixPath.file_exists. simpl.
    destruct (PosixPath.eqb f MoreExamples.file_X) eqn:Ex.
    + apply posix_path_eqb_eq in Ex. subst f. intros _. simpl. auto.
    + destruct (PosixPath.eqb f MoreExamples.file_Y) eqn:Ey;
        [| discriminate].
      apply posix_path_eqb_eq in Ey. subst f. intros _. simpl. auto.
  - simpl. lia.
  - unfold default_limit. simpl. lia.
Defined.

(** The theorem at the file of A when the file of its parent B does not
    exist. *)
Lemma construction_fails_without_parent_file_witness :
  posix_load Examples.fs_orphan default_limit [] Examples.file_A
  = ([("A", Examples.doc_A)], None)
  /\ posix_init Examples.fs_orphan Examples.file_A Examples.settings_on
     = Raise KeyError.
Proof.
  apply (construction_fails_without_parent_file PosixPath.t
           PosixPath.of_string PosixPath.stem PosixPath.parent
           PosixPath.joinpath
           (PosixPath.file_exists Examples.fs_orphan)
           (PosixPath.read_text Examples.fs_orphan)
           (PosixPath.json_loads Examples.fs_orphan)
           default_limit Examples.file_A Examples.settings_on
           Examples.doc_A (PStr "B"));
    try reflexivity.
  unfold default_limit. lia.
Defined.

(** The theorem at the linter built from the files of A, B, C and the
    base document. *)
Lemma construction_establishes_witness :
  _file (Examples.self_chain Examples.settings_on) = Examples.file_A
  /\ dict_keys (_definitions (Examples.self_chain Examples.settings_on))
     = ["A"; "B"; "C"; "fdmprinter"]
  /\ NoDup (dict_keys (_definitions (Examples.self_chain Examples.settings_on))).
Proof.
  destruct (construction_establishes PosixPath.t PosixPath.of_string
              PosixPath.stem PosixPath.parent PosixPath.joinpath
              (PosixPath.file_exists Examples.fs_chain)
              (PosixPath.read_text Examples.fs_chain)
              (PosixPath.json_loads Examples.fs_chain)
              default_limit Examples.file_A Examples.settings_on
              (Examples.self_chain Examples.settings_on))
    as [Hfile [_ [_ [_ [_ [Hnd _]]]]]].
  - vm_compute. reflexivity.
  - split; [exact Hfile |]. split; [reflexivity | exact Hnd].
Defined.

(** The theorem at a root document that has overrides of its own. *)
Lemma roots_and_plain_documents_yield_nothing_witness :
  posix_checkRedefineOverride MoreExamples.self_root = finished []
  /\ posix_check MoreExamples.self_root = finished [None].
Proof.
  destruct (roots_and_plain_documents_yield_nothing PosixPath.t Regex.search
              default_limit MoreExamples.self_root "fdmprinter"
              [("overrides",
                PDict [("speed", PDict [("type", PStr "float");
                                         ("default_value", PInt 60)])])]
              []
              [("checks", PDict [(rule_name, PBool true)])]
              [(rule_name, PBool true)] eq_refl (or_introl eq_refl))
    as [Hrule Hcheck].
  split; [exact Hrule | now apply Hcheck].
Defined.

(** * Properties of the printer configuration model *)
Section PrinterConfigurationFacts.
Variable Extruder : Type.
Variable same_object : forall a b : Extruder, {a = b} + {a <> b}.
Variable position : Extruder -> Z.
Variable extruder_eq : Extruder -> Extruder -> bool.
Variable extruder_eq_None : Extruder -> bool.
Variable extruder_hash : Extruder -> Z.
Variable extruder_truth : Extruder -> bool.
Variable Material : Type.
Variable active_material : Extruder -> option Material.
Variable material_truth : Material -> bool.
Variable material_type : Material -> string.
Variable hash_str : string -> Z.
Variable hash_None : Z.

Abbreviation model := (PrinterConfiguration.t Extruder).
Abbreviation _extruder_configurations :=
  (@PrinterConfiguration._extruder_configurations Extruder).
Abbreviation _printer_type := (@PrinterConfiguration._printer_type Extruder).
Abbreviation _buildplate_configuration :=
  (@PrinterConfiguration._buildplate_configuration Extruder).
Abbreviation emitted := (@PrinterConfiguration.emitted Extruder).
Abbreviation connected := (@PrinterConfiguration.connected Extruder).
Abbreviation isValid := (@PrinterConfiguration.isValid Extruder).
Abbreviation hasAnyMaterialLoaded :=
  (PrinterConfiguration.hasAnyMaterialLoaded Extruder Material active_material
     material_truth material_type).
Abbreviation has_material :=
  (PrinterConfiguration.has_material Extruder Material active_material
     material_truth material_type).
Abbreviation setExtruderConfigurations :=
  (PrinterConfiguration.setExtruderConfigurations Extruder same_object
     extruder_eq extruder_eq_None).
Abbreviation setBuildplateConfiguration :=
  (@PrinterConfiguration.setBuildplateConfiguration Extruder).
Abbreviation setPrinterType := (@PrinterConfiguration.setPrinterType Extruder).
Abbreviation __eq__ :=
  (PrinterConfiguration.__eq__ Extruder position extruder_eq).
Abbreviation __hash__ :=
  (PrinterConfiguration.__hash__ Extruder position extruder_hash extruder_truth
     hash_str hash_None).
Abbreviation sorted_by_position :=
  (PrinterConfiguration.sorted_by_position Extruder position).
Abbreviation insert_by_position :=
  (PrinterConfiguration.insert_by_position Extruder position).

Lemma find_is_None (l : list (option Extruder)) :
  find (@PrinterConfiguration.is_None Extruder) l = None
  <-> forall c, In c l -> c <> None.
Proof.
  induction l as [|[e|] l IH]; simpl.
  - split; [intros _ c [] | reflexivity].
  - rewrite IH. split.
    + intros H c [<- | Hc]; [discriminate | auto].
    + intros H c Hc. apply H. auto.
  - split; [discriminate |]. intros H. exfalso. apply (H None); auto.
Qed.

Lemma valid_iff (self : model) :
  isValid self = true
  <-> _extruder_configurations self <> []
      /\ (forall c, In c (_extruder_configurations self) -> c <> None)
      /\ _printer_type self <> "".
Proof.
  unfold PrinterConfiguration.isValid.
  destruct (_extruder_configurations self) as [|c l] eqn:El.
  - split; [discriminate | intros [H _]; contradiction].
  - destruct (find (@PrinterConfiguration.is_None Extruder) (c :: l)) eqn:Ef.
    + split; [discriminate |]. intros [_ [H _]].
      pose proof (proj2 (find_is_None (c :: l)) H). congruence.
    + pose proof (proj1 (find_is_None (c :: l)) Ef) as Hno.
      rewrite negb_true_iff, String.eqb_neq.
      split.
      * intros H. repeat split; auto. discriminate.
      * tauto.
Qed.

(** X11.  [isValid] holds exactly when there is at least one extruder
    configuration, none of them is [None], and the printer type is not
    the empty string; the buildplate plays no part. *)
Theorem valid_configuration (self : model) :
  isValid self = true
  <-> _extruder_configurations self <> []
      /\ (forall c, In c (_extruder_configurations self) -> c <> None)
      /\ _printer_type self <> "".
Proof. apply valid_iff. Qed.

Lemma any_material_spec (l : list (option Extruder)) :
  (forall c, In c l -> c <> None) ->
  exists b,
    PrinterConfiguration.any_material Extruder Material active_material
      material_truth material_type l = Ok b
    /\ (b = true <-> exists e, In (Some e) l /\ has_material e = true).
Proof.
  induction l as [|[e|] l IH]; intros Hall.
  - exists false. split; [reflexivity |].
    split; [discriminate | intros [e [[] _]]].
  - simpl. destruct (has_material e) eqn:He.
    + exists true. split; [reflexivity |]. split; [| reflexivity].
      intros _. exists e. auto.
    + destruct IH as [b [Hb Hiff]]; [intros c Hc; apply Hall; simpl; auto |].
      exists b. split; [exact Hb |]. rewrite Hiff. split.
      * intros [e' [Hin Hl]]. exists e'. auto.
      * intros [e' [[Heq | Hin] Hl]]; [| eauto].
        injection Heq as <-. congruence.
  - exfalso. apply (Hall None); simpl; auto.
Qed.

(** X12.  [hasAnyMaterialLoaded] never raises, and it holds exactly when
    the configuration is valid and some extruder has an active material
    that is true and whose type is not [empty].  An invalid configuration
    has no material loaded, whatever its extruders hold. *)
Theorem material_loaded_only_when_valid (self : model) :
  exists b,
    hasAnyMaterialLoaded self = Ok b
    /\ (b = true
        <-> isValid self = true
            /\ exists e, In (Some e) (_extruder_configurations self)
                         /\ has_material e = true).
Proof.
  unfold PrinterConfiguration.hasAnyMaterialLoaded.
  destruct (isValid self) eqn:Hv.
  - destruct (proj1 (valid_iff self) Hv) as [_ [Hno _]].
    destruct (any_material_spec (_extruder_configurations self) Hno) as [b [Hb Hiff]].
    exists b. split; [exact Hb |]. rewrite Hiff. tauto.
  - exists false. split; [reflexivity |].
    split; [discriminate | intros [H _]; discriminate].
Qed.

Lemma list_ne_same (l : list (option Extruder)) :
  PrinterConfiguration.list_ne Extruder same_object extruder_eq
    extruder_eq_None l l = false.
Proof.
  induction l as [|[e|] l IH]; simpl; auto.
  destruct (same_object e e); [exact IH | contradiction].
Qed.

Lemma connect_all_grows (l : list (option Extruder)) :
  forall connected,
    exists added,
      fst (PrinterConfiguration.connect_all Extruder l connected)
      = (connected ++ added)%list
      /\ (snd (PrinterConfiguration.connect_all Extruder l connected) <> None ->
          In None l).
Proof.
  induction l as [|[e|] l IH]; intros connected; simpl.
  - exists []. rewrite app_nil_r. split; [reflexivity | congruence].
  - destruct (IH (connected ++ [e])%list) as [added [Heq Hnone]].
    exists (e :: added). rewrite Heq, <- app_assoc. split; auto.
  - exists []. rewrite app_nil_r. auto.
Qed.

(** X13.  [setExtruderConfigurations] called again with the same list
    does nothing and raises nothing, also after a first call that raised.
    A call emits [configurationChanged] at most once and never removes a
    connection; when it raises, which takes a [None] in the new list, the
    list has been replaced and nothing has been emitted. *)
Theorem extruder_setter_settles (self : model) (l : list (option Extruder)) :
  setExtruderConfigurations (fst (setExtruderConfigurations self l)) l
  = (fst (setExtruderConfigurations self l), None)
  /\ (exists added,
        connected (fst (setExtruderConfigurations self l))
        = (connected self ++ added)%list)
  /\ emitted self <= emitted (fst (setExtruderConfigurations self l))
     <= S (emitted self)
  /\ (snd (setExtruderConfigurations self l) <> None ->
      In None l
      /\ _extruder_configurations (fst (setExtruderConfigurations self l)) = l
      /\ emitted (fst (setExtruderConfigurations self l)) = emitted self).
Proof.
  unfold PrinterConfiguration.setExtruderConfigurations.
  destruct (PrinterConfiguration.list_ne Extruder same_object extruder_eq
              extruder_eq_None (_extruder_configurations self) l) eqn:Hne.
  - destruct (connect_all_grows l (connected self)) as [added [Heq Hnone]].
    destruct (PrinterConfiguration.connect_all Extruder l (connected self))
      as [connected' [e|]]; simpl in *.
    + rewrite list_ne_same.
      split; [reflexivity |]. split; [eauto |]. split; [lia |].
      intros _. split; [apply Hnone; discriminate | split; reflexivity].
    + rewrite list_ne_same.
      split; [reflexivity |]. split; [eauto |]. split; [lia |].
      intros H. contradiction.
  - simpl. rewrite Hne.
    split; [reflexivity |].
    split; [exists []; now rewrite app_nil_r |]. split; [lia |].
    intros H. contradiction.
Qed.

Lemma option_string_eqb_eq (a b : option string) :
  PrinterConfiguration.option_string_eqb a b = true <-> a = b.
Proof.
  destruct a as [x|], b as [y|]; simpl; split; try discriminate; auto.
  - intros H. apply String.eqb_eq in H. now subst.
  - intros H. injection H as <-. apply String.eqb_refl.
Qed.

(** X14.  [setPrinterType] stores the type and never emits
    [configurationChanged], even when the type changes.
    [setBuildplateConfiguration] emits exactly once when the value
    differs from the stored one and not at all otherwise, and a second
    call with the same value changes nothing. *)
Theorem type_is_set_silently_buildplate_on_change (self : model) :
  (forall printer_type',
      _printer_type (setPrinterType self printer_type') = printer_type'
      /\ emitted (setPrinterType self printer_type') = emitted self
      /\ connected (setPrinterType self printer_type') = connected self)
  /\ (forall b,
        _buildplate_configuration (setBuildplateConfiguration self b) = b
        /\ emitted (setBuildplateConfiguration self b)
           = (if PrinterConfiguration.option_string_eqb
                   (_buildplate_configuration self) b
              then emitted self else S (emitted self))
        /\ setBuildplateConfiguration (setBuildplateConfiguration self b) b
           = setBuildplateConfiguration self b).
Proof.
  split.
  - intros printer_type'. repeat split.
  - intros b. unfold PrinterConfiguration.setBuildplateConfiguration.
    destruct (PrinterConfiguration.option_string_eqb (_buildplate_configuration self) b)
      eqn:E; simpl.
    + rewrite E. simpl. repeat split.
      now apply option_string_eqb_eq.
    + assert (Hb : PrinterConfiguration.option_string_eqb b b = true)
        by now apply option_string_eqb_eq.
      rewrite Hb. repeat split.
Qed.

Lemma extruders_of_some (es : list Extruder) :
  PrinterConfiguration.extruders_of Extruder (map Some es) = Ok es.
Proof.
  induction es as [|e es IH]; simpl; auto. now rewrite IH.
Qed.

Lemma extruders_of_ok (l : list (option Extruder)) (es : list Extruder) :
  PrinterConfiguration.extruders_of Extruder l = Ok es -> l = map Some es.
Proof.
  revert es. induction l as [|[e|] l IH]; intros es; simpl.
  - intros H. injection H as <-. reflexivity.
  - destruct (PrinterConfiguration.extruders_of Extruder l) as [es'|x];
      [| discriminate].
    simpl. intros H. injection H as <-. simpl. now rewrite (IH es').
  - discriminate.
Qed.

Lemma extruders_of_raises (l : list (option Extruder)) (e : exn) :
  PrinterConfiguration.extruders_of Extruder l = Raise e -> e = AttributeError.
Proof.
  induction l as [|[x|] l IH]; simpl; try discriminate.
  - destruct (PrinterConfiguration.extruders_of Extruder l); simpl;
      [discriminate | exact IH].
  - intros H. now injection H as <-.
Qed.

Lemma all_equal_same (l : list Extruder) :
  (forall e, extruder_eq e e = true) ->
  PrinterConfiguration.all_equal Extruder extruder_eq l l = true.
Proof.
  intros Hrefl. induction l as [|e l IH]; simpl; auto.
  now rewrite Hrefl, IH.
Qed.

Lemma all_equal_swap (l l' : list Extruder) :
  (forall a b, extruder_eq a b = extruder_eq b a) ->
  PrinterConfiguration.all_equal Extruder extruder_eq l l'
  = PrinterConfiguration.all_equal Extruder extruder_eq l' l.
Proof.
  intros Hsym. revert l'. induction l as [|a l IH]; intros [|b l']; simpl; auto.
  now rewrite Hsym, IH.
Qed.

(** X15.  [__eq__] is reflexive and symmetric as far as the equality of
    extruders is: a model whose extruders are all there equals any model
    with the same type, buildplate and list of extruders, whatever was
    emitted or connected; and comparing two models gives the same answer,
    or the same exception, in either order. *)
Theorem equality_is_reflexive_and_symmetric :
  (forall (self other : model) (es : list Extruder),
      (forall e, extruder_eq e e = true) ->
      _printer_type other = _printer_type self ->
      _buildplate_configuration other = _buildplate_configuration self ->
      _extruder_configurations self = map Some es ->
      _extruder_configurations other = map Some es ->
      __eq__ self (Some other) = Ok true)
  /\ (forall self other : model,
         (forall a b, extruder_eq a b = extruder_eq b a) ->
         __eq__ self (Some other) = __eq__ other (Some self)).
Proof.
  split.
  - intros self other es Hrefl Ht Hb He He'.
    unfold PrinterConfiguration.__eq__, PrinterConfiguration.printerType,
      PrinterConfiguration.buildplateConfiguration,
      PrinterConfiguration.extruderConfigurations.
    rewrite Ht, Hb, He, He', String.eqb_refl, Nat.eqb_refl.
    rewrite (proj2 (option_string_eqb_eq _ _) eq_refl). simpl.
    rewrite extruders_of_some. simpl. now rewrite all_equal_same.
  - intros self other Hsym.
    unfold PrinterConfiguration.__eq__, PrinterConfiguration.printerType,
      PrinterConfiguration.buildplateConfiguration,
      PrinterConfiguration.extruderConfigurations.
    rewrite (String.eqb_sym (_printer_type other)).
    destruct (String.eqb (_printer_type self) (_printer_type other));
      simpl; auto.
    assert (Hob : PrinterConfiguration.option_string_eqb (_buildplate_configuration other)
                    (_buildplate_configuration self)
                  = PrinterConfiguration.option_string_eqb (_buildplate_configuration self)
                      (_buildplate_configuration other)).
    { destruct (_buildplate_configuration self), (_buildplate_configuration other); simpl; auto.
      apply String.eqb_sym. }
    rewrite Hob.
    destruct (PrinterConfiguration.option_string_eqb (_buildplate_configuration self)
                (_buildplate_configuration other)); simpl; auto.
    rewrite (Nat.eqb_sym (List.length (_extruder_configurations other))).
    destruct (List.length (_extruder_configurations self)
              =? List.length (_extruder_configurations other))%nat;
      simpl; auto.
    destruct (PrinterConfiguration.extruders_of Extruder (_extruder_configurations self))
      as [mine|e] eqn:Em;
      destruct (PrinterConfiguration.extruders_of Extruder (_extruder_configurations other))
        as [theirs|e'] eqn:Et; simpl; auto.
    + now rewrite all_equal_swap.
    + apply extruders_of_raises in Em, Et. now subst.
Qed.

Lemma insert_swap (x y : Extruder) (l : list Extruder) :
  position x <> position y ->
  insert_by_position x (insert_by_position y l) = insert_by_position y (insert_by_position x l).
Proof.
  intros Hne. induction l as [|z l IH];
    repeat (cbn [PrinterConfiguration.insert_by_position];
            match goal with
            | |- context [(?a <=? ?b)%Z] => destruct (Z.leb_spec a b)
            end);
    cbn [PrinterConfiguration.insert_by_position];
    try lia; try reflexivity.
  now rewrite IH.
Qed.

Lemma sorted_of_permutation (l l' : list Extruder) :
  Permutation l l' ->
  NoDup (map position l) ->
  sorted_by_position l = sorted_by_position l'.
Proof.
  induction 1 as [| x l l' _ IH | x y l | l l' l'' H1 IH1 H2 IH2];
    intros Hnd; simpl in *.
  - reflexivity.
  - apply NoDup_cons_iff in Hnd as [_ Hnd]. now rewrite IH.
  - apply NoDup_cons_iff in Hnd as [Hy _].
    apply insert_swap. intros Heq. apply Hy. simpl. auto.
  - rewrite IH1 by assumption. apply IH2.
    apply (Permutation_NoDup (Permutation_map position H1) Hnd).
Qed.

(** X16.  [__eq__] does not depend on the order of the extruders: two
    models with the same type and buildplate whose lists hold the same
    extruders in any order are equal, when no two extruders share a
    position and an extruder equals itself. *)
Theorem equality_ignores_the_order (self other : model)
    (es es' : list Extruder) :
  (forall e, extruder_eq e e = true) ->
  _printer_type other = _printer_type self ->
  _buildplate_configuration other = _buildplate_configuration self ->
  _extruder_configurations self = map Some es ->
  _extruder_configurations other = map Some es' ->
  Permutation es es' ->
  NoDup (map position es) ->
  __eq__ self (Some other) = Ok true.
Proof.
  intros Hrefl Ht Hb He He' Hperm Hnd.
  unfold PrinterConfiguration.__eq__, PrinterConfiguration.printerType,
    PrinterConfiguration.buildplateConfiguration,
    PrinterConfiguration.extruderConfigurations.
  rewrite Ht, Hb, He, He', String.eqb_refl.
  rewrite (proj2 (option_string_eqb_eq _ _) eq_refl), !length_map.
  rewrite (Permutation_length Hperm), Nat.eqb_refl. simpl.
  rewrite !extruders_of_some. simpl.
  rewrite (sorted_of_permutation es es' Hperm Hnd).
  now rewrite all_equal_same.
Qed.

Abbreviation xor_hashes := (PrinterConfiguration.xor_hashes Extruder extruder_hash).
Abbreviation at_zero := (PrinterConfiguration.at_zero Extruder position).
Abbreviation last_of := (PrinterConfiguration.last_of Extruder).

Lemma last_of_cons (e : Extruder) (l : list Extruder) :
  last_of (e :: l)
  = match last_of l with
    | Some x => Some x
    | None => Some e
    end.
Proof.
  unfold PrinterConfiguration.last_of. simpl.
  destruct (rev l) as [|x r]; reflexivity.
Qed.

Lemma hash_loop_spec (es : list Extruder) :
  forall (acc : Z) (first : option Extruder),
    PrinterConfiguration.hash_loop Extruder position extruder_hash
      (map Some es) acc first
    = Ok (Z.lxor acc (xor_hashes es),
          match last_of (at_zero es) with
          | Some e => Some e
          | None => first
          end).
Proof.
  induction es as [|e es IH]; intros acc first; simpl.
  - now rewrite Z.lxor_0_r.
  - rewrite IH, Z.lxor_assoc.
    destruct (position e =? 0)%Z; [| reflexivity].
    rewrite last_of_cons.
    now destruct (last_of (at_zero es)).
Qed.

Lemma xor_of_insert (x : Extruder) (l : list Extruder) :
  xor_hashes (insert_by_position x l) = Z.lxor (extruder_hash x) (xor_hashes l).
Proof.
  induction l as [|y l IH]; simpl; auto.
  destruct (position x <=? position y)%Z; simpl; auto.
  rewrite IH, <- !Z.lxor_assoc. f_equal. apply Z.lxor_comm.
Qed.

Lemma xor_of_sorted (l : list Extruder) : xor_hashes (sorted_by_position l) = xor_hashes l.
Proof.
  induction l as [|x l IH]; simpl; auto.
  now rewrite xor_of_insert, IH.
Qed.

(** The sort is stable: the extruders at position 0 keep their order. *)
Lemma zeros_of_insert (x : Extruder) (l : list Extruder) :
  at_zero (insert_by_position x l) = at_zero (x :: l).
Proof.
  induction l as [|y l IH]; simpl; auto.
  destruct (Z.leb_spec (position x) (position y)); simpl; auto.
  simpl in IH. rewrite IH.
  destruct (Z.eqb_spec (position x) 0), (Z.eqb_spec (position y) 0);
    auto; lia.
Qed.

Lemma zeros_of_sorted (l : list Extruder) : at_zero (sorted_by_position l) = at_zero l.
Proof.
  induction l as [|x l IH]; simpl; auto.
  rewrite zeros_of_insert. simpl. now rewrite IH.
Qed.

Lemma length_insert_by_position (x : Extruder) (l : list Extruder) :
  List.length (insert_by_position x l) = S (List.length l).
Proof.
  induction l as [|y l IH]; simpl; auto.
  destruct (position x <=? position y)%Z; simpl; auto.
Qed.

Lemma length_sorted (l : list Extruder) :
  List.length (sorted_by_position l) = List.length l.
Proof.
  induction l as [|x l IH]; simpl; auto.
  now rewrite length_insert_by_position, IH.
Qed.

Lemma all_equal_Forall2 (l : list Extruder) : forall l',
  List.length l = List.length l' ->
  PrinterConfiguration.all_equal Extruder extruder_eq l l' = true ->
  Forall2 (fun a b => extruder_eq a b = true) l l'.
Proof.
  induction l as [|a l IH]; intros [|b l'] Hlen Hall; try discriminate;
    constructor; simpl in *; apply andb_true_iff in Hall as [Hab Hall];
    auto.
Qed.

Section Respect.
Hypothesis equal_extruders_agree :
  forall a b, extruder_eq a b = true ->
    extruder_hash a = extruder_hash b
    /\ position a = position b
    /\ extruder_truth a = extruder_truth b.

Lemma Forall2_xor (l l' : list Extruder) :
  Forall2 (fun a b => extruder_eq a b = true) l l' -> xor_hashes l = xor_hashes l'.
Proof.
  induction 1 as [|a b l l' Hab _ IH]; simpl; auto.
  destruct (equal_extruders_agree a b Hab) as [-> _]. now rewrite IH.
Qed.

Lemma Forall2_zeros (l l' : list Extruder) :
  Forall2 (fun a b => extruder_eq a b = true) l l' ->
  Forall2 (fun a b => extruder_eq a b = true) (at_zero l) (at_zero l').
Proof.
  induction 1 as [|a b l l' Hab _ IH]; simpl; [constructor |].
  destruct (equal_extruders_agree a b Hab) as [_ [-> _]].
  destruct (position b =? 0)%Z; auto.
Qed.

Lemma Forall2_last (l l' : list Extruder) :
  Forall2 (fun a b => extruder_eq a b = true) l l' ->
  match last_of l, last_of l' with
  | Some a, Some b => extruder_eq a b = true
  | None, None => True
  | _, _ => False
  end.
Proof.
  induction 1 as [|a b l l' Hab _ IH]; [exact I |].
  rewrite !last_of_cons.
  destruct (last_of l), (last_of l'); auto; contradiction.
Qed.

(** X17.  Equal models have equal hashes: when [__eq__] answers true
    for two models, [__hash__] succeeds on both with the same value,
    provided that extruders which compare equal have the same hash, the
    same position and the same truth value. *)
Theorem equal_models_hash_alike (self other : model) :
  __eq__ self (Some other) = Ok true ->
  exists h, __hash__ self = Ok h /\ __hash__ other = Ok h.
Proof.
  unfold PrinterConfiguration.__eq__, PrinterConfiguration.printerType,
    PrinterConfiguration.buildplateConfiguration,
    PrinterConfiguration.extruderConfigurations.
  destruct (String.eqb (_printer_type self) (_printer_type other)) eqn:Et;
    [| discriminate].
  destruct (PrinterConfiguration.option_string_eqb (_buildplate_configuration self)
              (_buildplate_configuration other)) eqn:Eb; [| discriminate].
  destruct (List.length (_extruder_configurations self) =? List.length (_extruder_configurations other))%nat
    eqn:El; [| discriminate].
  cbn [negb].
  destruct (PrinterConfiguration.extruders_of Extruder (_extruder_configurations self))
    as [mine|e] eqn:Em; [| discriminate].
  destruct (PrinterConfiguration.extruders_of Extruder (_extruder_configurations other))
    as [theirs|e] eqn:Eo; [| discriminate].
  cbn [bind]. intros Hall. injection Hall as Hall.
  apply String.eqb_eq in Et. apply option_string_eqb_eq in Eb.
  apply Nat.eqb_eq in El.
  apply extruders_of_ok in Em, Eo.
  rewrite Em, Eo, !length_map in El.
  assert (Hrel : Forall2 (fun a b => extruder_eq a b = true)
                   (sorted_by_position mine) (sorted_by_position theirs))
    by (apply all_equal_Forall2; [now rewrite !length_sorted | exact Hall]).
  pose proof (Forall2_xor _ _ Hrel) as Hxor.
  rewrite !xor_of_sorted in Hxor.
  pose proof (Forall2_last _ _ (Forall2_zeros _ _ Hrel)) as Hlast.
  rewrite !zeros_of_sorted in Hlast.
  unfold PrinterConfiguration.__hash__.
  rewrite Em, Eo, !hash_loop_spec. cbn [bind].
  rewrite !Z.lxor_0_l, Et, Eb, Hxor.
  destruct (last_of (at_zero mine)) as [a|],
    (last_of (at_zero theirs)) as [b|]; try contradiction.
  - destruct (equal_extruders_agree a b Hlast) as [-> [_ ->]].
    eexists. split; reflexivity.
  - eexists. split; reflexivity.
Qed.

End Respect.

End PrinterConfigurationFacts.

Lemma extruder_equal_refl (e : MoreExamples.extruder) :
  MoreExamples.extruder_equal e e = true.
Proof.
  unfold MoreExamples.extruder_equal.
  now rewrite Z.eqb_refl, String.eqb_refl.
Qed.

Lemma extruder_equal_agree (a b : MoreExamples.extruder) :
  MoreExamples.extruder_equal a b = true ->
  MoreExamples.extruder_hashed a = MoreExamples.extruder_hashed b
  /\ MoreExamples.extruder_position a = MoreExamples.extruder_position b
  /\ (fun _ : MoreExamples.extruder => true) a
     = (fun _ : MoreExamples.extruder => true) b.
Proof.
  destruct a as [p s], b as [q u].
  unfold MoreExamples.extruder_equal, MoreExamples.extruder_hashed,
    MoreExamples.extruder_position. simpl.
  intros H. apply andb_true_iff in H as [Hp Hs].
  apply Z.eqb_eq in Hp. apply String.eqb_eq in Hs. subst. auto.
Qed.

Lemma equality_ignores_the_order_witness :
  PrinterConfiguration.__eq__ MoreExamples.extruder
    MoreExamples.extruder_position MoreExamples.extruder_equal
    MoreExamples.model_left_right (Some MoreExamples.model_right_left)
  = Ok true.
Proof.
  apply (equality_ignores_the_order MoreExamples.extruder
           MoreExamples.extruder_position MoreExamples.extruder_equal
           MoreExamples.model_left_right MoreExamples.model_right_left
           [MoreExamples.left_pla; MoreExamples.right_abs]
           [MoreExamples.right_abs; MoreExamples.left_pla]).
  - exact extruder_equal_refl.
  - reflexivity.
  - reflexivity.
  - reflexivity.
  - reflexivity.
  - apply perm_swap.
  - repeat constructor; simpl; intuition discriminate.
Defined.

Lemma equal_models_hash_alike_witness :
  exists h,
    PrinterConfiguration.__hash__ MoreExamples.extruder
      MoreExamples.extruder_position MoreExamples.extruder_hashed
      (fun _ => true) MoreExamples.string_hashed 0%Z
      MoreExamples.model_left_right = Ok h
    /\ PrinterConfiguration.__hash__ MoreExamples.extruder
         MoreExamples.extruder_position MoreExamples.extruder_hashed
         (fun _ => true) MoreExamples.string_hashed 0%Z
         MoreExamples.model_right_left = Ok h.
Proof.
  apply (equal_models_hash_alike MoreExamples.extruder
           MoreExamples.extruder_position MoreExamples.extruder_equal
           MoreExamples.extruder_hashed (fun _ => true)
           MoreExamples.string_hashed 0%Z extruder_equal_agree).
  reflexivity.
Defined.

Lemma extruder_equal_sym (a b : MoreExamples.extruder) :
  MoreExamples.extruder_equal a b = MoreExamples.extruder_equal b a.
Proof.
  unfold MoreExamples.extruder_equal.
  now rewrite Z.eqb_sym, String.eqb_sym.
Qed.

(** The theorem at a model and itself, and at the two models with the
    extruders in either order. *)
Lemma equality_is_reflexive_and_symmetric_witness :
  PrinterConfiguration.__eq__ MoreExamples.extruder
    MoreExamples.extruder_position MoreExamples.extruder_equal
    MoreExamples.model_left_right (Some MoreExamples.model_left_right)
  = Ok true
  /\ PrinterConfiguration.__eq__ MoreExamples.extruder
       MoreExamples.extruder_position MoreExamples.extruder_equal
       MoreExamples.model_left_right (Some MoreExamples.model_right_left)
     = PrinterConfiguration.__eq__ MoreExamples.extruder
         MoreExamples.extruder_position MoreExamples.extruder_equal
         MoreExamples.model_right_left (Some MoreExamples.model_left_right).
Proof.
  destruct (equality_is_reflexive_and_symmetric MoreExamples.extruder
              MoreExamples.extruder_position MoreExamples.extruder_equal)
    as [Hrefl Hsym].
  split.
  - apply (Hrefl MoreExamples.model_left_right MoreExamples.model_left_right
             [MoreExamples.left_pla; MoreExamples.right_abs]
             extruder_equal_refl); reflexivity.
  - apply (Hsym MoreExamples.model_left_right MoreExamples.model_right_left
             extruder_equal_sym).
Defined.

(** The theorem at a new model given a list with a [None] in it: the
    call raises, the list is stored and nothing is emitted; the same call
    again does nothing. *)
Lemma extruder_setter_settles_witness :
  snd (PrinterConfiguration.setExtruderConfigurations MoreExamples.extruder
         MoreExamples.extruder_is MoreExamples.extruder_equal
         (fun _ => false) (PrinterConfiguration.new MoreExamples.extruder)
         [Some MoreExamples.left_pla; None])
  = Some AttributeError
  /\ PrinterConfiguration._extruder_configurations MoreExamples.extruder
       (fst (PrinterConfiguration.setExtruderConfigurations
               MoreExamples.extruder MoreExamples.extruder_is
               MoreExamples.extruder_equal (fun _ => false)
               (PrinterConfiguration.new MoreExamples.extruder)
               [Some MoreExamples.left_pla; None]))
     = [Some MoreExamples.left_pla; None]
  /\ PrinterConfiguration.emitted MoreExamples.extruder
       (fst (PrinterConfiguration.setExtruderConfigurations
               MoreExamples.extruder MoreExamples.extruder_is
               MoreExamples.extruder_equal (fun _ => false)
               (PrinterConfiguration.new MoreExamples.extruder)
               [Some MoreExamples.left_pla; None]))
     = 0.
Proof.
  destruct (extruder_setter_settles MoreExamples.extruder
              MoreExamples.extruder_is MoreExamples.extruder_equal
              (fun _ => false)
              (PrinterConfiguration.new MoreExamples.extruder)
              [Some MoreExamples.left_pla; None])
    as [_ [_ [_ Hraise]]].
  split; [reflexivity |].
  destruct Hraise as [_ [Hlist Hemit]]; [discriminate |].
  split; [exact Hlist | exact Hemit].
Defined.

(** The theorem at the linter of A, whose one override repeats the value
    of C: what the rule yields is one warning for the file of A. *)
Lemma diagnostics_are_warnings_of_the_rule_witness :
  Forall
    (fun d => Diagnostic.file d = Examples.file_A
              /\ Diagnostic.diagnostic_name d = rule_name
              /\ Diagnostic.level d = "Warning"
              /\ List.length (Diagnostic.replacements d) <= 1
              /\ Forall (fun r => Replacement.file r = Examples.file_A
                                  /\ Replacement.replacement_text r = "")
                   (Diagnostic.replacements d))
    (yielded (posix_checkRedefineOverride
                (Examples.self_chain Examples.settings_on)))
  /\ List.length
       (yielded (posix_checkRedefineOverride
                   (Examples.self_chain Examples.settings_on))) <= 1.
Proof.
  destruct (diagnostics_are_warnings_of_the_rule PosixPath.t Regex.search
              default_limit (Examples.self_chain Examples.settings_on)
              Examples.doc_A [("speed", PDict [("value", PInt 50)])])
    as [Hall [Hlen Hrule]].
  assert (Heq : posix_checkRedefineOverride
                  (Examples.self_chain Examples.settings_on)
                = redefine_loop Regex.search default_limit
                    (Examples.self_chain Examples.settings_on)
                    Examples.doc_A [("speed", PDict [("value", PInt 50)])])
    by (eapply Hrule; reflexivity).
  rewrite Heq. split; [exact Hall | exact Hlen].
Defined.
